(** * Terminal sticky scroll contribution

    A shallow embedding of
    [src/vs/workbench/contrib/terminalContrib/stickyScroll/browser/terminal.stickyScroll.contribution.ts]
    (class [TerminalStickyScrollContribution]) and the properties of its
    refresh routine, its buffer-change handler and its click handler.

    The controller is a JavaScript object with optional fields that are
    filled in by asynchronous continuations; the embedding keeps every such
    field as an [option], passes the controller state explicitly, and makes
    the [TypeError] of a non-null assertion on a missing value a distinct
    outcome that keeps the mutations performed before it. *)

From Stdlib Require Import ZArith String Ascii List Bool Lia.
Import ListNotations.

Local Open Scope Z_scope.
Local Open Scope string_scope.

(** ** JavaScript string primitives used by the source *)

Module Js.

(** The length of a string as a JavaScript number. *)
Definition length (s : string) : Z := Z.of_nat (String.length s).

(** [s.indexOf(pat)]: the first position of [pat] in [s], or [-1]. *)
Definition indexOf (s pat : string) : Z :=
  match String.index 0 pat s with
  | Some i => Z.of_nat i
  | None => -1
  end.

(** Arguments of [substring] are clamped to [0 .. length]. *)
Definition clamp (len x : Z) : Z := Z.min (Z.max x 0) len.

(** [s.substring(a, b)]: both bounds clamped, then swapped when the
    first is the greater one. *)
Definition substring (s : string) (a b : Z) : string :=
  let len := length s in
  let a' := clamp len a in
  let b' := clamp len b in
  let lo := Z.min a' b' in
  let hi := Z.max a' b' in
  String.substring (Z.to_nat lo) (Z.to_nat (hi - lo)) s.

(** Truthiness of a string: any string but the empty one. *)
Definition truthy (s : string) : bool :=
  match s with
  | EmptyString => false
  | String _ _ => true
  end.

(** The carriage return, ['\r']. *)
Definition CR : ascii := ascii_of_nat 13.
Definition cr : string := String CR EmptyString.

(** The escape character, ['\x1b']. *)
Definition ESC : ascii := ascii_of_nat 27.

(** [occurs c s]: the character [c] occurs in [s]. *)
Fixpoint occurs (c : ascii) (s : string) : bool :=
  match s with
  | EmptyString => false
  | String a s' => if Ascii.eqb a c then true else occurs c s'
  end.

End Js.

(** ** Data model *)

(** An [IMarker] of the terminal library: a reference to a buffer line.
    Its [line] is [-1] once the marker is disposed. *)
Record IMarker := { line : Z }.

(** A property slot of a JavaScript object: [None] when the object has no
    such key, [Some None] when the key is there and holds [undefined],
    [Some (Some v)] when it holds [v]. *)
Definition Slot (A : Type) : Type := option (option A).

(** ['k' in o] *)
Definition hasKey {A : Type} (f : Slot A) : bool :=
  match f with
  | Some _ => true
  | None => false
  end.

(** [o.k] *)
Definition getKey {A : Type} (f : Slot A) : option A :=
  match f with
  | Some v => v
  | None => None
  end.

(** The command records of the command-detection capability: a partial
    command carries [commandStartMarker], a finished one [marker]. *)
Record Command := {
  commandStartMarker : Slot IMarker;
  marker : Slot IMarker
}.

(** [ScrollPosition] of the mark navigation addon. *)
Inductive ScrollPosition := Top | Middle.

(** [buffer.type] of a buffer-change event. *)
Inductive BufferType := normal | alternate.

(** [style.display] of an element as [show] and [hide] leave it. *)
Inductive Display := Shown | Hidden.

(** The options the overlay copies from the primary terminal.  Numbers are
    only copied, never computed with. *)
Record VisualOptions := {
  documentOverride : option string;
  fontFamily : string;
  fontWeight : string;
  fontWeightBold : string;
  fontSize : Z;
  letterSpacing : Z;
  lineHeight : Z;
  drawBoldTextInBrightColors : bool;
  minimumContrastRatio : Z;
  tabStopWidth : Z;
  overviewRulerWidth : Z
}.

(** The colour theme, an opaque value for this file. *)
Definition ITheme := string.

(** The options object [_syncOptions] assigns to the overlay. *)
Record OverlayOptions := {
  cursorInactiveStyle : string;
  scrollback : Z;
  logLevel : string;
  theme : ITheme;
  visual : VisualOptions
}.

(** [xterm.raw.element]: the rendered surface of the primary terminal;
    [parentElement] is [null] while the surface is detached. *)
Record SurfaceElement := { parentElement : option unit }.

(** [xterm.raw], the primary terminal.  [viewportY] and [baseY] are those
    of [buffer.active]. *)
Record RawXtermTerminal := {
  element : option SurfaceElement;
  cols : Z;
  viewportY : Z;
  baseY : Z;
  options : VisualOptions;
  serializeLoaded : bool
}.

(** The terminal handle given to [xtermReady].  [scrollRequests] logs the
    calls of [scrollToLine], oldest first. *)
Record IXtermTerminal := {
  raw : RawXtermTerminal;
  isGpuAccelerated : bool;
  getXtermTheme : ITheme;
  scrollRequests : list (Z * ScrollPosition)
}.

(** The overlay terminal.  [written] logs the data given to [write],
    oldest first; [overlayOptions] is [None] until options are assigned. *)
Record Overlay := {
  rows : Z;
  overlayCols : Z;
  written : list string;
  overlayOptions : option OverlayOptions;
  opened : bool;
  canvasLoaded : bool
}.

(** The overlay element [this._element].  [hoverOverlay] tells whether the
    click target has been appended to it. *)
Record HTMLElement := {
  classList : list string;
  textContent : string;
  display : Display;
  attached : bool;
  hoverOverlay : bool
}.

(** The serialize addon; [serializeCalls] logs the [scrollback] argument of
    every call of [serialize], oldest first. *)
Record SerializeAddon := { serializeCalls : list Z }.

(** The fields of [TerminalStickyScrollContribution].  [disposables] counts
    the listeners registered through [this.add]. *)
Record Contribution := {
  _xterm : option IXtermTerminal;
  _element : option HTMLElement;
  _stickyScrollOverlay : option Overlay;
  _currentStickyMarker : option IMarker;
  _serializeAddon : option SerializeAddon;
  _canvasAddon : bool;
  disposables : nat
}.

(** What the controller reads from its collaborators during one call:
    the command-detection capability ([capabilities.get] followed by
    [getCommandForLine]), the string [serialize] returns for a scrollback
    count, and the text the overlay terminal's DOM adds to the element it
    is opened into. *)
Record Host := {
  commandDetection : option (Z -> option Command);
  serialize : Z -> string;
  openedText : string
}.

(** A call either returns or throws; the state reached is kept in both
    cases, since the mutations made before a [TypeError] stay. *)
Inductive Outcome :=
| Returned (st : Contribution)
| Threw (st : Contribution).

Definition stateOf (o : Outcome) : Contribution :=
  match o with
  | Returned st => st
  | Threw st => st
  end.

Definition returned (o : Outcome) : bool :=
  match o with
  | Returned _ => true
  | Threw _ => false
  end.

(** ** Field updates *)

Definition with_xterm (v : option IXtermTerminal) (st : Contribution) : Contribution :=
  {| _xterm := v; _element := _element st;
     _stickyScrollOverlay := _stickyScrollOverlay st;
     _currentStickyMarker := _currentStickyMarker st;
     _serializeAddon := _serializeAddon st;
     _canvasAddon := _canvasAddon st; disposables := disposables st |}.

Definition with_element (v : option HTMLElement) (st : Contribution) : Contribution :=
  {| _xterm := _xterm st; _element := v;
     _stickyScrollOverlay := _stickyScrollOverlay st;
     _currentStickyMarker := _currentStickyMarker st;
     _serializeAddon := _serializeAddon st;
     _canvasAddon := _canvasAddon st; disposables := disposables st |}.

Definition with_overlay (v : option Overlay) (st : Contribution) : Contribution :=
  {| _xterm := _xterm st; _element := _element st;
     _stickyScrollOverlay := v;
     _currentStickyMarker := _currentStickyMarker st;
     _serializeAddon := _serializeAddon st;
     _canvasAddon := _canvasAddon st; disposables := disposables st |}.

Definition with_marker (v : option IMarker) (st : Contribution) : Contribution :=
  {| _xterm := _xterm st; _element := _element st;
     _stickyScrollOverlay := _stickyScrollOverlay st;
     _currentStickyMarker := v;
     _serializeAddon := _serializeAddon st;
     _canvasAddon := _canvasAddon st; disposables := disposables st |}.

Definition with_serializeAddon (v : option SerializeAddon) (st : Contribution) : Contribution :=
  {| _xterm := _xterm st; _element := _element st;
     _stickyScrollOverlay := _stickyScrollOverlay st;
     _currentStickyMarker := _currentStickyMarker st;
     _serializeAddon := v;
     _canvasAddon := _canvasAddon st; disposables := disposables st |}.

Definition with_canvasAddon (v : bool) (st : Contribution) : Contribution :=
  {| _xterm := _xterm st; _element := _element st;
     _stickyScrollOverlay := _stickyScrollOverlay st;
     _currentStickyMarker := _currentStickyMarker st;
     _serializeAddon := _serializeAddon st;
     _canvasAddon := v; disposables := disposables st |}.

(** [this.add(listener)] *)
Definition add (st : Contribution) : Contribution :=
  {| _xterm := _xterm st; _element := _element st;
     _stickyScrollOverlay := _stickyScrollOverlay st;
     _currentStickyMarker := _currentStickyMarker st;
     _serializeAddon := _serializeAddon st;
     _canvasAddon := _canvasAddon st; disposables := S (disposables st) |}.

(** ** DOM helpers *)

Definition set_display (d : Display) (e : HTMLElement) : HTMLElement :=
  {| classList := classList e; textContent := textContent e; display := d;
     attached := attached e; hoverOverlay := hoverOverlay e |}.

(** Modelled from the spec: [show] of [vs/base/browser/dom], which is
    imported by the source and not part of it; the spec speaks of showing
    the overlay DOM element. *)
Definition show (e : HTMLElement) : HTMLElement := set_display Shown e.

(** Modelled from the spec: [hide] of [vs/base/browser/dom], which is
    imported by the source and not part of it; the spec speaks of hiding
    the overlay DOM element. *)
Definition hide (e : HTMLElement) : HTMLElement := set_display Hidden e.

(** Modelled from the spec: [setVisibility] of [vs/base/browser/dom], which
    is imported by the source and not part of it; the element is shown when
    the flag holds and hidden otherwise. *)
Definition setVisibility (visible : bool) (e : HTMLElement) : HTMLElement :=
  if visible then show e else hide e.

(** [document.createElement('div')] followed by
    [classList.add('terminal-sticky-scroll')]. *)
Definition createElement : HTMLElement :=
  {| classList := ["terminal-sticky-scroll"]; textContent := "";
     display := Shown; attached := false; hoverOverlay := false |}.

(** [parent.append(element)] *)
Definition attach (e : HTMLElement) : HTMLElement :=
  {| classList := classList e; textContent := textContent e;
     display := display e; attached := true; hoverOverlay := hoverOverlay e |}.

(** [overlay.open(element)], seen from the element: the overlay terminal
    builds its DOM inside it. *)
Definition hostOverlay (text : string) (e : HTMLElement) : HTMLElement :=
  {| classList := classList e; textContent := textContent e ++ text;
     display := display e; attached := attached e;
     hoverOverlay := hoverOverlay e |}.

(** [append(this._element, hoverOverlay)]; the click target has no text. *)
Definition appendHover (e : HTMLElement) : HTMLElement :=
  {| classList := classList e; textContent := textContent e;
     display := display e; attached := attached e; hoverOverlay := true |}.

(** ** Overlay terminal operations *)

(** ['\x1b[H\x1b[K']: cursor home, then erase to the end of the line. *)
Definition RESET : string :=
  String Js.ESC ("[H" ++ String Js.ESC "[K").

(** [new ctor({ rows: 1, cols })] *)
Definition newOverlay (c : Z) : Overlay :=
  {| rows := 1; overlayCols := c; written := []; overlayOptions := None;
     opened := false; canvasLoaded := false |}.

(** [overlay.write(data)] *)
Definition write (data : string) (o : Overlay) : Overlay :=
  {| rows := rows o; overlayCols := overlayCols o;
     written := written o ++ [data]; overlayOptions := overlayOptions o;
     opened := opened o; canvasLoaded := canvasLoaded o |}.

(** [overlay.open(element)], seen from the terminal. *)
Definition open (o : Overlay) : Overlay :=
  {| rows := rows o; overlayCols := overlayCols o; written := written o;
     overlayOptions := overlayOptions o; opened := true;
     canvasLoaded := canvasLoaded o |}.

(** [overlay.loadAddon(canvasAddon)] *)
Definition loadCanvas (o : Overlay) : Overlay :=
  {| rows := rows o; overlayCols := overlayCols o; written := written o;
     overlayOptions := overlayOptions o; opened := opened o;
     canvasLoaded := true |}.

(** [_syncOptions(target, copyFrom)]: resize to the primary's columns and
    one row, then assign the option set. *)
Definition _syncOptions (x : IXtermTerminal) (target : Overlay) : Overlay :=
  let o := options (raw x) in
  {| rows := 1; overlayCols := cols (raw x); written := written target;
     overlayOptions :=
       Some {| cursorInactiveStyle := "none"; scrollback := 0;
               logLevel := "off"; theme := getXtermTheme x; visual := o |};
     opened := opened target; canvasLoaded := canvasLoaded target |}.

(** [xterm.scrollToLine(line, position)] *)
Definition scrollToLine (l : Z) (p : ScrollPosition) (x : IXtermTerminal) : IXtermTerminal :=
  {| raw := raw x; isGpuAccelerated := isGpuAccelerated x;
     getXtermTheme := getXtermTheme x;
     scrollRequests := scrollRequests x ++ [(l, p)] |}.

(** [addon.serialize({ scrollback: n })], seen from the addon. *)
Definition recordSerialize (n : Z) (a : SerializeAddon) : SerializeAddon :=
  {| serializeCalls := serializeCalls a ++ [n] |}.

(** ** The controller *)

(** The state the constructor leaves. *)
Definition initial : Contribution :=
  {| _xterm := None; _element := None; _stickyScrollOverlay := None;
     _currentStickyMarker := None; _serializeAddon := None;
     _canvasAddon := false; disposables := 0 |}.

(** [_ensureElement]: the element is stored before anything that can throw
    runs, so a failed first call leaves an element that later calls return
    as it is. *)
Definition _ensureElement (h : Host) (st : Contribution) : Outcome :=
  match _element st with
  | Some _ => Returned st
  | None =>
      let st1 := with_element (Some createElement) st in
      match _xterm st1 with
      | None => Threw st1
      | Some x =>
          match element (raw x) with
          | None => Threw st1
          | Some surface =>
              match parentElement surface with
              | None => Threw st1
              | Some _ =>
                  let st2 := with_element (Some (attach createElement)) st1 in
                  let st3 := add st2 in
                  match _stickyScrollOverlay st3 with
                  | None => Threw st3
                  | Some o =>
                      let e := hostOverlay (openedText h) (attach createElement) in
                      Returned
                        (with_element (Some (appendHover e))
                           (with_overlay (Some (open o)) st3))
                  end
              end
          end
      end
  end.

(** Lines 99 to 103 of the source: the marker of a command record. *)
Definition resolveMarker (command : option Command) : option IMarker :=
  match command with
  | Some c =>
      if hasKey (commandStartMarker c) then getKey (commandStartMarker c)
      else if hasKey (marker c) then getKey (marker c)
      else None
  | None => None
  end.

(** Lines 110 to 114: the element is hidden when its text content is the
    empty string and shown otherwise. *)
Definition showOrHide (e : HTMLElement) : HTMLElement :=
  if String.eqb (textContent e) "" then hide e else show e.

(** Line 125: the text before the first carriage return. *)
Definition extractContent (s : string) : string :=
  Js.substring s 0 (Js.indexOf s Js.cr).

(** Lines 121 to 131: call the addon if it is loaded, then write the
    extracted content if the result and the content are truthy. *)
Definition writeContent (h : Host) (x : IXtermTerminal) (m : IMarker)
    (st : Contribution) : Contribution :=
  match _serializeAddon st with
  | None => st
  | Some a =>
      let n := baseY (raw x) - line m in
      let s := serialize h n in
      let st1 := with_serializeAddon (Some (recordSerialize n a)) st in
      if Js.truthy s then
        let content := extractContent s in
        if Js.truthy content then
          with_overlay (option_map (write content) (_stickyScrollOverlay st1)) st1
        else st1
      else st1
  end.

(** Lines 117 to 133: nothing happens while the overlay terminal is not
    constructed. *)
Definition overlayStage (h : Host) (x : IXtermTerminal) (m : IMarker)
    (st : Contribution) : Contribution :=
  match _stickyScrollOverlay st with
  | None => st
  | Some o =>
      let st1 := with_overlay (Some (write RESET o)) st in
      let st2 := writeContent h x m st1 in
      with_overlay (option_map (_syncOptions x) (_stickyScrollOverlay st2)) st2
  end.

(** The body of [_refresh].  The [console.log] of line 115 is left out. *)
Definition _refresh (h : Host) (st : Contribution) : Outcome :=
  match _xterm st with
  | None => Returned st
  | Some x =>
      match element (raw x) with
      | None => Returned st
      | Some _ =>
          let st1 := with_marker None st in
          match commandDetection h with
          | None => Returned st1
          | Some getCommandForLine =>
              let command := getCommandForLine (viewportY (raw x)) in
              match resolveMarker command with
              | None => Returned st1
              | Some m =>
                  if (line m =? -1)%Z then Returned st1
                  else
                    let st2 := with_marker (Some m) st1 in
                    match _ensureElement h st2 with
                    | Threw st3 => Threw st3
                    | Returned st3 =>
                        let st4 :=
                          with_element (option_map showOrHide (_element st3)) st3 in
                        Returned (overlayStage h x m st4)
                    end
              end
          end
      end
  end.

(** The buffer-change listener of [xtermReady]. *)
Definition onBufferChange (h : Host) (ty : BufferType) (st : Contribution) : Outcome :=
  match _ensureElement h st with
  | Threw st1 => Threw st1
  | Returned st1 =>
      let visible := match ty with normal => true | alternate => false end in
      Returned (with_element (option_map (setVisibility visible) (_element st1)) st1)
  end.

(** The click listener of the hover overlay. *)
Definition onHoverClick (st : Contribution) : Contribution :=
  match _xterm st, _currentStickyMarker st with
  | Some x, Some m => with_xterm (Some (scrollToLine (line m) Middle x)) st
  | _, _ => st
  end.

(** The synchronous part of [xtermReady]: the handle is stored and three
    listeners are registered. *)
Definition xtermReady (x : IXtermTerminal) (st : Contribution) : Contribution :=
  add (add (add (with_xterm (Some x) st))).

(** The continuation of [getXtermConstructor]: the overlay is built with
    one row and the primary's columns. *)
Definition overlayConstructed (st : Contribution) : Contribution :=
  match _xterm st with
  | Some x => with_overlay (Some (newOverlay (cols (raw x)))) st
  | None => st
  end.

(** [xterm.raw.loadAddon(serializeAddon)] *)
Definition loadSerialize (x : IXtermTerminal) : IXtermTerminal :=
  {| raw := {| element := element (raw x); cols := cols (raw x);
               viewportY := viewportY (raw x); baseY := baseY (raw x);
               options := options (raw x); serializeLoaded := true |};
     isGpuAccelerated := isGpuAccelerated x;
     getXtermTheme := getXtermTheme x;
     scrollRequests := scrollRequests x |}.

(** The continuation of [_getSerializeAddonConstructor], started once the
    overlay terminal is constructed. *)
Definition serializeAddonLoaded (st : Contribution) : Contribution :=
  with_xterm (option_map loadSerialize (_xterm st))
    (with_serializeAddon (Some {| serializeCalls := [] |}) st).

(** The continuation of [_getCanvasAddonConstructor], started only for a
    GPU-accelerated primary terminal. *)
Definition canvasAddonLoaded (st : Contribution) : Contribution :=
  match _xterm st with
  | Some x =>
      if isGpuAccelerated x then
        with_overlay (option_map loadCanvas (_stickyScrollOverlay st))
          (with_canvasAddon true st)
      else st
  | None => st
  end.

(** ** Events and the rate-limited refresh *)

(** A click reaches the listener only when the click target is in the
    element. *)
Definition click (st : Contribution) : Contribution :=
  match _element st with
  | Some e => if hoverOverlay e then onHoverClick st else st
  | None => st
  end.

(** The primary terminal moves its viewport before it fires [onScroll]. *)
Definition moveViewport (y : Z) (x : IXtermTerminal) : IXtermTerminal :=
  {| raw := {| element := element (raw x); cols := cols (raw x);
               viewportY := y; baseY := baseY (raw x);
               options := options (raw x);
               serializeLoaded := serializeLoaded (raw x) |};
     isGpuAccelerated := isGpuAccelerated x;
     getXtermTheme := getXtermTheme x;
     scrollRequests := scrollRequests x |}.

(** What the controller's listeners can receive. *)
Inductive Event :=
| Scroll (y : Z)
| LineFeed
| BufferChange (ty : BufferType)
| Click.

(** The scroll and line-feed events are the ones that ask for a refresh. *)
Definition asksRefresh (e : Event) : bool :=
  match e with
  | Scroll _ | LineFeed => true
  | BufferChange _ | Click => false
  end.

(** The controller together with the bookkeeping of the rate limiter:
    [pending] tells whether a refresh was asked for in the current turn,
    [bodyRuns] counts the executions of the body of [_refresh]. *)
Record Scheduler := {
  controller : Contribution;
  pending : bool;
  bodyRuns : nat
}.

(** A scheduler between two turns. *)
Definition idle (st : Contribution) (n : nat) : Scheduler :=
  {| controller := st; pending := false; bodyRuns := n |}.

Definition with_controller (st : Contribution) (s : Scheduler) : Scheduler :=
  {| controller := st; pending := pending s; bodyRuns := bodyRuns s |}.

(** Modelled from the spec: the [throttle] decorator of
    [vs/base/common/decorators], applied to [_refresh] as [@throttle(0)]
    and not among the sources.  The spec gives it trailing-edge coalescing
    with zero minimum delay: a call within a turn only marks the refresh as
    asked for. *)
Definition throttledRefresh (s : Scheduler) : Scheduler :=
  {| controller := controller s; pending := true; bodyRuns := bodyRuns s |}.

(** Modelled from the spec: the trailing edge of the [throttle] decorator,
    not among the sources.  When the turn ends, a refresh that was asked
    for runs once, with no further delay, on the state of that moment. *)
Definition endOfTurn (h : Host) (s : Scheduler) : Scheduler :=
  if pending s then
    {| controller := stateOf (_refresh h (controller s)); pending := false;
       bodyRuns := S (bodyRuns s) |}
  else s.

(** The listeners of [xtermReady] and of [_ensureElement].  A listener that
    throws ends there; the state it reached stays. *)
Definition dispatch (h : Host) (s : Scheduler) (e : Event) : Scheduler :=
  match e with
  | Scroll y =>
      throttledRefresh
        (with_controller
           (with_xterm (option_map (moveViewport y) (_xterm (controller s)))
              (controller s)) s)
  | LineFeed => throttledRefresh s
  | BufferChange ty =>
      with_controller (stateOf (onBufferChange h ty (controller s))) s
  | Click => with_controller (click (controller s)) s
  end.

(** The events of one turn, oldest first. *)
Definition dispatchAll (h : Host) (evs : list Event) (s : Scheduler) : Scheduler :=
  fold_left (dispatch h) evs s.

(** One turn of the event loop. *)
Definition runTurn (h : Host) (evs : list Event) (s : Scheduler) : Scheduler :=
  endOfTurn h (dispatchAll h evs s).

(** ** Vocabulary of the statements *)

(** A state change applied to the state of an outcome. *)
Definition mapOutcome (f : Contribution -> Contribution) (o : Outcome) : Outcome :=
  match o with
  | Returned st => Returned (f st)
  | Threw st => Threw (f st)
  end.

(** The command record the refresh asks the capability for. *)
Definition commandAtViewport (h : Host) (st : Contribution) : option Command :=
  match _xterm st, commandDetection h with
  | Some x, Some getCommandForLine => getCommandForLine (viewportY (raw x))
  | _, _ => None
  end.

(** The writes a refresh adds to the overlay terminal for a given content. *)
Definition refreshWrites (content : string) : list string :=
  RESET :: (if Js.truthy content then [content] else []).

(** The content a refresh extracts: none while the addon is missing or
    when it returns the empty string. *)
Definition refreshContent (h : Host) (x : IXtermTerminal) (m : IMarker)
    (st : Contribution) : string :=
  match _serializeAddon st with
  | None => ""
  | Some _ =>
      let s := serialize h (baseY (raw x) - line m) in
      if Js.truthy s then extractContent s else ""
  end.

(** The outcome of the spec's serialization scenario: the refresh
    returns, the addon has been called with the scrollback count [n], and
    [content] has been written to the overlay terminal. *)
Definition serializedAndWritten (h : Host) (st : Contribution) (n : Z)
    (content : string) : Prop :=
  exists st' a o',
    _refresh h st = Returned st' /\
    _serializeAddon st' = Some a /\
    In n (serializeCalls a) /\
    _stickyScrollOverlay st' = Some o' /\
    In content (written o').

(** ** Sample values *)

Definition sampleOptions : VisualOptions :=
  {| documentOverride := None; fontFamily := "monospace";
     fontWeight := "normal"; fontWeightBold := "bold"; fontSize := 12;
     letterSpacing := 0; lineHeight := 1;
     drawBoldTextInBrightColors := true; minimumContrastRatio := 1;
     tabStopWidth := 8; overviewRulerWidth := 10 |}.

(** A primary terminal of 80 columns with its surface attached, the
    viewport at line [vy] and the scrollback baseline at line [by]. *)
Definition sampleXterm (vy by_ : Z) : IXtermTerminal :=
  {| raw := {| element := Some {| parentElement := Some tt |}; cols := 80;
               viewportY := vy; baseY := by_; options := sampleOptions;
               serializeLoaded := false |};
     isGpuAccelerated := false; getXtermTheme := "dark";
     scrollRequests := [] |}.

(** A primary terminal that has not been opened into the DOM yet. *)
Definition detachedXterm : IXtermTerminal :=
  {| raw := {| element := None; cols := 80; viewportY := 0; baseY := 0;
               options := sampleOptions; serializeLoaded := false |};
     isGpuAccelerated := false; getXtermTheme := "dark";
     scrollRequests := [] |}.

(** A partial command whose start marker is at line [l]. *)
Definition partialCommand (l : Z) : Command :=
  {| commandStartMarker := Some (Some {| line := l |}); marker := None |}.

(** A finished command whose marker is at line [l]. *)
Definition finishedCommand (l : Z) : Command :=
  {| commandStartMarker := None; marker := Some (Some {| line := l |}) |}.

(** A host whose capability maps every line to [c], whose serializer
    always answers [s] and whose overlay DOM carries the text [text]. *)
Definition hostWith (c : option Command) (s text : string) : Host :=
  {| commandDetection := Some (fun _ => c); serialize := fun _ => s;
     openedText := text |}.

(** The same with an overlay DOM that carries no text. *)
Definition sampleHost (c : option Command) (s : string) : Host :=
  hostWith c s "".

(** A record with both fields. *)
Definition bothMarkers (l1 l2 : Z) : Command :=
  {| commandStartMarker := Some (Some {| line := l1 |});
     marker := Some (Some {| line := l2 |}) |}.

(** A serialized buffer of two lines. *)
Definition twoLines : string := "ls -la" ++ Js.cr ++ String (ascii_of_nat 10) "$ ".

(** The controller once the overlay terminal and the serialize addon have
    both arrived. *)
Definition readyState (x : IXtermTerminal) : Contribution :=
  serializeAddonLoaded (overlayConstructed (xtermReady x initial)).

(** The same before the serialize addon has arrived. *)
Definition overlayOnlyState (x : IXtermTerminal) : Contribution :=
  overlayConstructed (xtermReady x initial).

(** The ready controller after a buffer-change event has created the
    element. *)
Definition elementState (h : Host) (x : IXtermTerminal) : Contribution :=
  stateOf (onBufferChange h normal (readyState x)).

(** ** The life of a controller *)

(** [present o]: the optional field holds a value. *)
Definition present {A : Type} (o : option A) : bool :=
  match o with
  | Some _ => true
  | None => false
  end.

(** What can happen to a controller after [xtermReady]: the body of
    [_refresh] runs, a buffer-change event or a click is delivered, one of
    the three promises of [xtermReady] resolves, or the host changes the
    primary terminal (its surface, size, buffer positions or options). *)
Inductive Action :=
| ARefresh
| ABufferChange (ty : BufferType)
| AClick
| ACtorResolved
| ASerializeResolved
| ACanvasResolved
| APrimary (r : RawXtermTerminal).

(** The controller with the promises of [xtermReady] that are still to
    resolve, and the number of listener calls that ended in a
    [TypeError]. *)
Record System := {
  ctrl : Contribution;
  ctorPending : bool;
  serializePending : bool;
  canvasPending : bool;
  throws : nat
}.

(** The host replaces the state of [xterm.raw]. *)
Definition replaceRaw (r : RawXtermTerminal) (x : IXtermTerminal) : IXtermTerminal :=
  {| raw := r; isGpuAccelerated := isGpuAccelerated x;
     getXtermTheme := getXtermTheme x;
     scrollRequests := scrollRequests x |}.

(** The system right after [xtermReady]: only the promise of the
    constructor is outstanding (line 66). *)
Definition boot (x : IXtermTerminal) : System :=
  {| ctrl := xtermReady x initial; ctorPending := true;
     serializePending := false; canvasPending := false; throws := 0 |}.

(** The state a listener call leaves, and one more throw when it threw. *)
Definition settle (o : Outcome) (sys : System) : System :=
  {| ctrl := stateOf o; ctorPending := ctorPending sys;
     serializePending := serializePending sys;
     canvasPending := canvasPending sys;
     throws := if returned o then throws sys else S (throws sys) |}.

Definition with_ctrl (st : Contribution) (sys : System) : System :=
  {| ctrl := st; ctorPending := ctorPending sys;
     serializePending := serializePending sys;
     canvasPending := canvasPending sys; throws := throws sys |}.

(** Lines 66 to 83: the constructor's continuation stores the overlay and
    starts the load of the serialize addon, and that of the canvas addon
    when the primary terminal is GPU accelerated. *)
Definition ctorResolved (sys : System) : System :=
  if ctorPending sys then
    {| ctrl := overlayConstructed (ctrl sys); ctorPending := false;
       serializePending := true;
       canvasPending :=
         match _xterm (ctrl sys) with
         | Some x => isGpuAccelerated x
         | None => false
         end;
       throws := throws sys |}
  else sys.

(** Lines 72 to 75. *)
Definition serializeResolved (sys : System) : System :=
  if serializePending sys then
    {| ctrl := serializeAddonLoaded (ctrl sys);
       ctorPending := ctorPending sys; serializePending := false;
       canvasPending := canvasPending sys; throws := throws sys |}
  else sys.

(** Lines 78 to 81. *)
Definition canvasResolved (sys : System) : System :=
  if canvasPending sys then
    {| ctrl := canvasAddonLoaded (ctrl sys);
       ctorPending := ctorPending sys;
       serializePending := serializePending sys; canvasPending := false;
       throws := throws sys |}
  else sys.

(** One action, under the host of that moment. *)
Definition perform (sys : System) (ha : Host * Action) : System :=
  let (h, a) := ha in
  match a with
  | ARefresh => settle (_refresh h (ctrl sys)) sys
  | ABufferChange ty => settle (onBufferChange h ty (ctrl sys)) sys
  | AClick => with_ctrl (click (ctrl sys)) sys
  | ACtorResolved => ctorResolved sys
  | ASerializeResolved => serializeResolved sys
  | ACanvasResolved => canvasResolved sys
  | APrimary r =>
      with_ctrl (with_xterm (option_map (replaceRaw r) (_xterm (ctrl sys)))
                   (ctrl sys)) sys
  end.

(** A run of actions, oldest first. *)
Definition performAll (l : list (Host * Action)) (sys : System) : System :=
  fold_left perform l sys.

(** The number of clicks in a run. *)
Definition clicks (l : list (Host * Action)) : nat :=
  List.length (filter (fun ha => match snd ha with AClick => true | _ => false end) l).

(** The requests the primary terminal has received. *)
Definition requestsOf (st : Contribution) : list (Z * ScrollPosition) :=
  match _xterm st with
  | Some x => scrollRequests x
  | None => []
  end.

(** Two elements that differ at most in their [display]. *)
Definition sameButDisplay (e e' : HTMLElement) : Prop :=
  classList e' = classList e /\
  textContent e' = textContent e /\
  attached e' = attached e /\
  hoverOverlay e' = hoverOverlay e.

(** The state holds the element [e], up to its [display]. *)
Definition keepsElement (e : HTMLElement) (st : Contribution) : Prop :=
  exists e', _element st = Some e' /\ sameButDisplay e e'.

(** The number of click listeners the element accounts for: the listener
    is registered right after the element is attached. *)
Definition attachedCount (st : Contribution) : nat :=
  match _element st with
  | Some e => if attached e then 1%nat else 0%nat
  | None => 0%nat
  end.

(** The listeners registered so far are the three of [xtermReady] and the
    click listener of an attached element. *)
Definition listenersOk (st : Contribution) : Prop :=
  disposables st = (3 + attachedCount st)%nat.

(** The overlay terminal, if there is one, has one row. *)
Definition oneRow (st : Contribution) : Prop :=
  forall o, _stickyScrollOverlay st = Some o -> rows o = 1.

(** [xterm.isGpuAccelerated] of the stored handle. *)
Definition gpuOf (st : Contribution) : bool :=
  match _xterm st with
  | Some x => isGpuAccelerated x
  | None => false
  end.

(** The order in which [xtermReady] builds things: the handle is there;
    the addon loads are started, and the addons exist, only once the
    overlay terminal does; the canvas addon is loaded only for a GPU
    accelerated primary terminal, and then into the overlay. *)
Definition loadOrder (sys : System) : Prop :=
  present (_xterm (ctrl sys)) = true /\
  (ctorPending sys = negb (present (_stickyScrollOverlay (ctrl sys)))) /\
  (serializePending sys = true -> present (_stickyScrollOverlay (ctrl sys)) = true) /\
  (present (_serializeAddon (ctrl sys)) = true ->
   present (_stickyScrollOverlay (ctrl sys)) = true) /\
  (canvasPending sys = true ->
   present (_stickyScrollOverlay (ctrl sys)) = true /\ gpuOf (ctrl sys) = true) /\
  (_canvasAddon (ctrl sys) = true ->
   gpuOf (ctrl sys) = true /\
   option_map canvasLoaded (_stickyScrollOverlay (ctrl sys)) = Some true).

(** No listener call has thrown while there is no element, and at most
    one has thrown at all. *)
Definition throwsOk (sys : System) : Prop :=
  (present (_element (ctrl sys)) = false -> throws sys = 0%nat) /\
  (throws sys <= 1)%nat.

(** A GPU-accelerated primary terminal. *)
Definition gpuXterm : IXtermTerminal :=
  {| raw := raw (sampleXterm 0 100); isGpuAccelerated := true;
     getXtermTheme := "dark"; scrollRequests := [] |}.

(** * Properties *)

(** ** JavaScript strings *)

Section JsStrings.

Lemma prefix_cr (b : ascii) (s : string) :
  String.prefix Js.cr (String b s) = Ascii.eqb b Js.CR.
Proof.
  change (String.prefix Js.cr (String b s))
    with (match ascii_dec Js.CR b with
          | left _ => String.prefix "" s
          | right _ => false
          end).
  destruct (ascii_dec Js.CR b) as [E | E].
  - subst b. rewrite Ascii.eqb_refl. now destruct s.
  - destruct (Ascii.eqb_spec b Js.CR) as [E' | _]; [congruence | reflexivity].
Qed.

Lemma index_cr_cons (b : ascii) (s : string) :
  String.index 0 Js.cr (String b s) =
  if Ascii.eqb b Js.CR then Some 0%nat
  else option_map S (String.index 0 Js.cr s).
Proof.
  change (String.index 0 Js.cr (String b s))
    with (if String.prefix Js.cr (String b s) then Some 0%nat
          else match String.index 0 Js.cr s with
               | Some n => Some (S n)
               | None => None
               end).
  rewrite prefix_cr. destruct (Ascii.eqb b Js.CR); [reflexivity |].
  now destruct (String.index 0 Js.cr s).
Qed.

Lemma index_cr_absent (s : string) :
  Js.occurs Js.CR s = false -> String.index 0 Js.cr s = None.
Proof.
  induction s as [| b s IH]; intros H.
  - reflexivity.
  - rewrite index_cr_cons. simpl in H.
    destruct (Ascii.eqb b Js.CR); [discriminate |].
    now rewrite IH.
Qed.

Lemma index_cr_first (p rest : string) :
  Js.occurs Js.CR p = false ->
  String.index 0 Js.cr (p ++ Js.cr ++ rest) = Some (String.length p).
Proof.
  induction p as [| b p IH]; intros H.
  - change ("" ++ Js.cr ++ rest) with (String Js.CR rest).
    rewrite index_cr_cons. now rewrite Ascii.eqb_refl.
  - change (String b p ++ Js.cr ++ rest) with (String b (p ++ Js.cr ++ rest)).
    rewrite index_cr_cons. simpl in H.
    destruct (Ascii.eqb b Js.CR); [discriminate |].
    now rewrite IH.
Qed.

Lemma indexOf_absent (s : string) :
  Js.occurs Js.CR s = false -> Js.indexOf s Js.cr = -1.
Proof.
  intros H. unfold Js.indexOf. now rewrite index_cr_absent.
Qed.

Lemma indexOf_first (p rest : string) :
  Js.occurs Js.CR p = false ->
  Js.indexOf (p ++ Js.cr ++ rest) Js.cr = Js.length p.
Proof.
  intros H. unfold Js.indexOf. now rewrite index_cr_first.
Qed.

Lemma substring_nothing (s : string) : String.substring 0 0 s = "".
Proof. now destruct s. Qed.

Lemma substring_prefix (p r : string) :
  String.substring 0 (String.length p) (p ++ r) = p.
Proof.
  induction p as [| b p IH]; simpl.
  - apply substring_nothing.
  - now rewrite IH.
Qed.

Lemma length_app (p r : string) :
  String.length (p ++ r) = (String.length p + String.length r)%nat.
Proof.
  induction p as [| b p IH]; simpl; [reflexivity | now rewrite IH].
Qed.

(** [s.substring(0, n)] for [n] within the string. *)
Lemma js_substring_prefix (p r : string) :
  Js.substring (p ++ r) 0 (Js.length p) = p.
Proof.
  unfold Js.substring, Js.clamp, Js.length. rewrite length_app.
  set (a := String.length p). set (b := String.length r).
  replace (Z.min (Z.max 0 0) (Z.of_nat (a + b))) with 0 by lia.
  replace (Z.min (Z.max (Z.of_nat a) 0) (Z.of_nat (a + b)))
    with (Z.of_nat a) by lia.
  replace (Z.min 0 (Z.of_nat a)) with 0 by lia.
  replace (Z.max 0 (Z.of_nat a) - 0) with (Z.of_nat a) by lia.
  rewrite Nat2Z.id. apply substring_prefix.
Qed.

(** [s.substring(0, -1)] is the empty string. *)
Lemma js_substring_minus_one (s : string) : Js.substring s 0 (-1) = "".
Proof.
  unfold Js.substring, Js.clamp, Js.length.
  set (n := String.length s).
  replace (Z.min (Z.max 0 0) (Z.of_nat n)) with 0 by lia.
  replace (Z.min (Z.max (-1) 0) (Z.of_nat n)) with 0 by lia.
  apply substring_nothing.
Qed.

Lemma extractContent_first_line (p rest : string) :
  Js.occurs Js.CR p = false ->
  extractContent (p ++ Js.cr ++ rest) = p.
Proof.
  intros H. unfold extractContent.
  rewrite indexOf_first by assumption. apply js_substring_prefix.
Qed.

Lemma extractContent_no_cr (s : string) :
  Js.occurs Js.CR s = false -> extractContent s = "".
Proof.
  intros H. unfold extractContent.
  rewrite indexOf_absent by assumption. apply js_substring_minus_one.
Qed.

Lemma truthy_false (s : string) : Js.truthy s = false <-> s = "".
Proof. destruct s; simpl; split; congruence. Qed.

End JsStrings.

Example indexOf_found : Js.indexOf ("ls" ++ Js.cr ++ "x") Js.cr = 2.
Proof. reflexivity. Qed.

Example indexOf_missing : Js.indexOf "ls" Js.cr = -1.
Proof. reflexivity. Qed.

Example substring_negative_end : Js.substring "ls -la" 0 (-1) = "".
Proof. reflexivity. Qed.

Example substring_swaps : Js.substring "abcdef" 4 1 = "bcd".
Proof. reflexivity. Qed.

(** ** Resolution of the marker *)

Lemma resolveMarker_none : resolveMarker None = None.
Proof. reflexivity. Qed.

Lemma resolveMarker_start (c : Command) :
  hasKey (commandStartMarker c) = true ->
  resolveMarker (Some c) = getKey (commandStartMarker c).
Proof. intros H. unfold resolveMarker. now rewrite H. Qed.

Lemma resolveMarker_generic (c : Command) :
  hasKey (commandStartMarker c) = false ->
  resolveMarker (Some c) =
  if hasKey (marker c) then getKey (marker c) else None.
Proof. intros H. unfold resolveMarker. now rewrite H. Qed.

(** ** Frame properties of [_ensureElement] *)

Ltac split_options :=
  repeat match goal with
         | |- context [match ?t with Some _ => _ | None => _ end] =>
             destruct t eqn:?; simpl
         end.

Ltac split_ensure := unfold _ensureElement; simpl; split_options.

Lemma ensureElement_with_marker (h : Host) (v : option IMarker) (st : Contribution) :
  _ensureElement h (with_marker v st) =
  mapOutcome (with_marker v) (_ensureElement h st).
Proof. split_ensure; reflexivity. Qed.

Lemma ensureElement_frame (h : Host) (st st' : Contribution) :
  _ensureElement h st = Returned st' ->
  _xterm st' = _xterm st /\
  _currentStickyMarker st' = _currentStickyMarker st /\
  _serializeAddon st' = _serializeAddon st /\
  option_map written (_stickyScrollOverlay st') =
    option_map written (_stickyScrollOverlay st) /\
  exists e, _element st' = Some e.
Proof.
  split_ensure; intros H; try discriminate; injection H as <-; simpl;
    repeat split; eauto.
Qed.

(** An element that exists is returned as it is. *)
Lemma ensureElement_existing (h : Host) (st : Contribution) (e : HTMLElement) :
  _element st = Some e -> _ensureElement h st = Returned st.
Proof. intros H. unfold _ensureElement. now rewrite H. Qed.

(** The first call returns when the surface has a parent and the overlay
    terminal is there. *)
Lemma ensureElement_creates (h : Host) (st : Contribution)
    (x : IXtermTerminal) (o : Overlay) :
  _element st = None ->
  _xterm st = Some x ->
  element (raw x) = Some {| parentElement := Some tt |} ->
  _stickyScrollOverlay st = Some o ->
  returned (_ensureElement h st) = true.
Proof.
  intros He Hx Hs Ho. unfold _ensureElement. rewrite He. simpl.
  rewrite Hx, Hs. simpl. now rewrite Ho.
Qed.

(** ** The overlay stage *)

Lemma overlayStage_absent (h : Host) (x : IXtermTerminal) (m : IMarker)
    (st : Contribution) :
  _stickyScrollOverlay st = None -> overlayStage h x m st = st.
Proof. intros H. unfold overlayStage. now rewrite H. Qed.

Lemma overlayStage_present (h : Host) (x : IXtermTerminal) (m : IMarker)
    (st : Contribution) (o : Overlay) :
  _stickyScrollOverlay st = Some o ->
  exists o',
    _stickyScrollOverlay (overlayStage h x m st) = Some o' /\
    written o' = (written o ++ refreshWrites (refreshContent h x m st))%list /\
    _element (overlayStage h x m st) = _element st /\
    _currentStickyMarker (overlayStage h x m st) = _currentStickyMarker st /\
    _serializeAddon (overlayStage h x m st) =
      option_map (recordSerialize (baseY (raw x) - line m)) (_serializeAddon st).
Proof.
  intros H. unfold overlayStage, writeContent, refreshContent, refreshWrites.
  rewrite H. simpl.
  destruct (_serializeAddon st) as [a |] eqn:Ha; simpl.
  - destruct (Js.truthy (serialize h (baseY (raw x) - line m))); simpl.
    + destruct (Js.truthy (extractContent (serialize h (baseY (raw x) - line m))));
        simpl; eexists; repeat split; simpl; now rewrite <- ?app_assoc.
    + eexists; repeat split.
  - eexists; repeat split; simpl; now rewrite ?Ha.
Qed.

(** ** The refresh routine *)

Section Refresh.

Variables (h : Host) (st : Contribution).

(** The guards of lines 88 and 94 and of line 104. *)
Lemma refresh_no_xterm : _xterm st = None -> _refresh h st = Returned st.
Proof. intros H. unfold _refresh. now rewrite H. Qed.

Lemma refresh_no_surface (x : IXtermTerminal) :
  _xterm st = Some x -> element (raw x) = None ->
  _refresh h st = Returned st.
Proof. intros Hx Hs. unfold _refresh. now rewrite Hx, Hs. Qed.

(** Every early return leaves the element and the overlay terminal as
    they were; at most the recorded marker is cleared. *)
Lemma refresh_unresolved :
  match resolveMarker (commandAtViewport h st) with
  | Some m => line m = -1
  | None => True
  end ->
  exists st',
    _refresh h st = Returned st' /\
    _element st' = _element st /\
    _stickyScrollOverlay st' = _stickyScrollOverlay st /\
    _serializeAddon st' = _serializeAddon st /\
    _xterm st' = _xterm st.
Proof.
  unfold _refresh, commandAtViewport.
  destruct (_xterm st) as [x |] eqn:Hx; [| eauto 6].
  destruct (element (raw x)) as [sf |]; [| eauto 6].
  destruct (commandDetection h) as [g |]; [| intros _; eexists; now repeat split].
  destruct (resolveMarker (g (viewportY (raw x)))) as [m |];
    [| intros _; eexists; now repeat split].
  intros ->. simpl. eexists; now repeat split.
Qed.

Variables (x : IXtermTerminal) (surface : SurfaceElement)
          (getCommandForLine : Z -> option Command) (m : IMarker).

Hypothesis Hxterm : _xterm st = Some x.
Hypothesis Hsurface : element (raw x) = Some surface.
Hypothesis Hcapability : commandDetection h = Some getCommandForLine.
Hypothesis Hmarker : resolveMarker (getCommandForLine (viewportY (raw x))) = Some m.
Hypothesis Hline : line m <> -1.

(** With a valid marker the refresh records it, makes sure the element
    exists, shows or hides it and runs the overlay stage. *)
Lemma refresh_valid :
  _refresh h st =
  match _ensureElement h st with
  | Threw s => Threw (with_marker (Some m) s)
  | Returned s =>
      Returned
        (overlayStage h x m
           (with_element (option_map showOrHide (_element s))
              (with_marker (Some m) s)))
  end.
Proof.
  unfold _refresh. rewrite Hxterm, Hsurface, Hcapability, Hmarker.
  destruct (Z.eqb_spec (line m) (-1)) as [E | _]; [contradiction |].
  change (with_marker (Some m) (with_marker None st)) with (with_marker (Some m) st).
  rewrite ensureElement_with_marker.
  destruct (_ensureElement h st); reflexivity.
Qed.

(** The state after a refresh that reaches the overlay stage. *)
Lemma refresh_overlay_stage (o : Overlay) :
  _stickyScrollOverlay st = Some o ->
  returned (_ensureElement h st) = true ->
  exists st' o',
    _refresh h st = Returned st' /\
    _stickyScrollOverlay st' = Some o' /\
    written o' = (written o ++ refreshWrites (refreshContent h x m st))%list /\
    _currentStickyMarker st' = Some m /\
    _serializeAddon st' =
      option_map (recordSerialize (baseY (raw x) - line m)) (_serializeAddon st).
Proof.
  intros Ho Hret. rewrite refresh_valid.
  destruct (_ensureElement h st) as [s | s] eqn:He; [| discriminate].
  destruct (ensureElement_frame _ _ _ He) as (_ & _ & Ha & Hw & _).
  rewrite Ho in Hw. simpl in Hw.
  destruct (_stickyScrollOverlay s) as [o1 |] eqn:Ho1; [| discriminate].
  injection Hw as Hw.
  set (s1 := with_element (option_map showOrHide (_element s))
               (with_marker (Some m) s)).
  destruct (overlayStage_present h x m s1 o1 Ho1) as (o' & E1 & E2 & _ & E4 & E5).
  exists (overlayStage h x m s1), o'. repeat split; try assumption.
  - rewrite E2, Hw. unfold refreshContent. simpl. now rewrite Ha.
  - rewrite E5. simpl. now rewrite Ha.
Qed.

(** The visibility a refresh leaves is decided by the text content of
    the element alone. *)
Lemma refresh_visibility (s : Contribution) (e : HTMLElement) :
  _ensureElement h st = Returned s ->
  _element s = Some e ->
  exists st',
    _refresh h st = Returned st' /\
    _element st' = Some (showOrHide e).
Proof.
  intros He Hel. rewrite refresh_valid, He.
  eexists. split; [reflexivity |].
  destruct (_stickyScrollOverlay s) as [o |] eqn:Ho.
  - set (s1 := with_element (option_map showOrHide (_element s))
                 (with_marker (Some m) s)).
    destruct (overlayStage_present h x m s1 o Ho) as (o' & _ & _ & E3 & _).
    fold s1. rewrite E3. unfold s1. simpl. now rewrite Hel.
  - rewrite overlayStage_absent by assumption. simpl. now rewrite Hel.
Qed.

End Refresh.

(** ** Claims on the resolution of the marker *)

(** C1.  A command record that exposes only [commandStartMarker] resolves
    to the line of that field, one that exposes only [marker] resolves to
    the line of that field, and when the record exposes neither, or no
    record is returned, the refresh returns early and leaves the overlay
    element and the overlay terminal as they were. *)
Theorem refresh_resolves_either_shape :
  (forall c : Command,
      hasKey (commandStartMarker c) = true -> hasKey (marker c) = false ->
      option_map line (resolveMarker (Some c)) =
      option_map line (getKey (commandStartMarker c))) /\
  (forall c : Command,
      hasKey (commandStartMarker c) = false -> hasKey (marker c) = true ->
      option_map line (resolveMarker (Some c)) =
      option_map line (getKey (marker c))) /\
  (forall (h : Host) (st : Contribution),
      (commandAtViewport h st = None \/
       exists c, commandAtViewport h st = Some c /\
                 hasKey (commandStartMarker c) = false /\
                 hasKey (marker c) = false) ->
      exists st',
        _refresh h st = Returned st' /\
        _element st' = _element st /\
        _stickyScrollOverlay st' = _stickyScrollOverlay st).
Proof.
  split; [| split].
  - intros c H1 _. now rewrite resolveMarker_start.
  - intros c H1 H2. rewrite resolveMarker_generic by assumption. now rewrite H2.
  - intros h st H.
    destruct (refresh_unresolved h st) as (st' & E & He & Ho & _).
    + destruct H as [-> | (c & -> & H1 & H2)]; [exact I |].
      rewrite resolveMarker_generic by assumption. now rewrite H2.
    + exists st'. now repeat split.
Qed.

Lemma refresh_resolves_either_shape_witness :
  option_map line (resolveMarker (Some (partialCommand 42))) = Some 42 /\
  option_map line (resolveMarker (Some (finishedCommand 7))) = Some 7 /\
  exists st',
    _refresh (sampleHost (Some {| commandStartMarker := None; marker := None |}) twoLines)
      (elementState (sampleHost None "") (sampleXterm 0 100)) = Returned st' /\
    _element st' = _element (elementState (sampleHost None "") (sampleXterm 0 100)) /\
    _stickyScrollOverlay st' =
      _stickyScrollOverlay (elementState (sampleHost None "") (sampleXterm 0 100)).
Proof.
  destruct refresh_resolves_either_shape as (H1 & H2 & H3).
  split; [| split].
  - apply (H1 (partialCommand 42)); reflexivity.
  - apply (H2 (finishedCommand 7)); reflexivity.
  - apply H3. right. eexists. repeat split; reflexivity.
Defined.

(** C10.  A command record that exposes both [commandStartMarker] and
    [marker] resolves to [commandStartMarker]: the result is the value of
    that field whatever the [marker] field holds. *)
Theorem start_marker_takes_precedence (c : Command) :
  hasKey (commandStartMarker c) = true ->
  hasKey (marker c) = true ->
  resolveMarker (Some c) = getKey (commandStartMarker c) /\
  forall v : Slot IMarker,
    resolveMarker
      (Some {| commandStartMarker := commandStartMarker c; marker := v |}) =
    resolveMarker (Some c).
Proof.
  intros H1 _. split.
  - now apply resolveMarker_start.
  - intros v. now rewrite !resolveMarker_start.
Qed.

Lemma start_marker_takes_precedence_witness :
  resolveMarker (Some (bothMarkers 3 9)) = Some {| line := 3 |} /\
  forall v : Slot IMarker,
    resolveMarker
      (Some {| commandStartMarker := Some (Some {| line := 3 |}); marker := v |}) =
    resolveMarker (Some (bothMarkers 3 9)).
Proof.
  apply (start_marker_takes_precedence (bothMarkers 3 9)); reflexivity.
Defined.

(** C4.  A refresh whose resolved marker has the line [-1] returns and
    leaves the overlay element, with its content and visibility, and the
    overlay terminal as they were before the call. *)
Theorem refresh_invalid_marker_frame (h : Host) (st : Contribution) (m : IMarker) :
  resolveMarker (commandAtViewport h st) = Some m ->
  line m = -1 ->
  exists st',
    _refresh h st = Returned st' /\
    _element st' = _element st /\
    _stickyScrollOverlay st' = _stickyScrollOverlay st.
Proof.
  intros Hm Hl.
  destruct (refresh_unresolved h st) as (st' & E & He & Ho & _).
  - now rewrite Hm.
  - exists st'. now repeat split.
Qed.

Lemma refresh_invalid_marker_frame_witness :
  exists st',
    _refresh (sampleHost (Some (partialCommand (-1))) twoLines)
      (elementState (sampleHost None "") (sampleXterm 0 100)) = Returned st' /\
    _element st' = _element (elementState (sampleHost None "") (sampleXterm 0 100)) /\
    _stickyScrollOverlay st' =
      _stickyScrollOverlay (elementState (sampleHost None "") (sampleXterm 0 100)).
Proof.
  apply (refresh_invalid_marker_frame _ _ {| line := -1 |}); reflexivity.
Defined.

(** ** Claims on the overlay stage *)

(** C6.  A refresh that reaches the overlay-write stage writes the reset
    sequence (cursor home, clear line) to the overlay terminal, and
    writes the extracted content after it exactly when that content is not
    empty; nothing else is written. *)
Theorem refresh_resets_then_writes (h : Host) (st : Contribution)
    (x : IXtermTerminal) (surface : SurfaceElement)
    (getCommandForLine : Z -> option Command) (m : IMarker) (o : Overlay) :
  _xterm st = Some x ->
  element (raw x) = Some surface ->
  commandDetection h = Some getCommandForLine ->
  resolveMarker (getCommandForLine (viewportY (raw x))) = Some m ->
  line m <> -1 ->
  _stickyScrollOverlay st = Some o ->
  returned (_ensureElement h st) = true ->
  exists st' o',
    _refresh h st = Returned st' /\
    _stickyScrollOverlay st' = Some o' /\
    written o' =
      (written o ++
       RESET :: (if Js.truthy (refreshContent h x m st)
                 then [refreshContent h x m st] else []))%list.
Proof.
  intros Hx Hs Hc Hm Hl Ho Hr.
  destruct (refresh_overlay_stage h st x surface getCommandForLine m
              Hx Hs Hc Hm Hl o Ho Hr) as (st' & o' & E & Eo & Ew & _).
  exists st', o'. now repeat split.
Qed.

Lemma refresh_resets_then_writes_witness :
  exists st' o',
    _refresh (sampleHost (Some (partialCommand 42)) twoLines)
      (readyState (sampleXterm 0 100)) = Returned st' /\
    _stickyScrollOverlay st' = Some o' /\
    written o' = [RESET; "ls -la"].
Proof.
  apply (refresh_resets_then_writes
           (sampleHost (Some (partialCommand 42)) twoLines)
           (readyState (sampleXterm 0 100))
           (loadSerialize (sampleXterm 0 100))
           {| parentElement := Some tt |}
           (fun _ => Some (partialCommand 42))
           {| line := 42 |}
           (newOverlay 80));
    solve [reflexivity | discriminate].
Defined.

(** C2, as amended.  A refresh that resolves a valid marker and reaches
    the overlay-write stage while the serialize addon is loaded calls the
    addon once more, with a scrollback count of the primary buffer's
    [baseY] minus the marker's line; and when the serialized string has a
    carriage return, what is written to the overlay terminal after the
    reset sequence is the text before the first carriage return, written
    only when it is not empty. *)
Theorem refresh_serializes_from_marker (h : Host) (st : Contribution)
    (x : IXtermTerminal) (surface : SurfaceElement)
    (getCommandForLine : Z -> option Command) (m : IMarker) (o : Overlay)
    (a : SerializeAddon) :
  _xterm st = Some x ->
  element (raw x) = Some surface ->
  commandDetection h = Some getCommandForLine ->
  resolveMarker (getCommandForLine (viewportY (raw x))) = Some m ->
  line m <> -1 ->
  _stickyScrollOverlay st = Some o ->
  returned (_ensureElement h st) = true ->
  _serializeAddon st = Some a ->
  exists st' o' a',
    _refresh h st = Returned st' /\
    _serializeAddon st' = Some a' /\
    serializeCalls a' = (serializeCalls a ++ [baseY (raw x) - line m])%list /\
    _stickyScrollOverlay st' = Some o' /\
    forall p rest : string,
      serialize h (baseY (raw x) - line m) = p ++ Js.cr ++ rest ->
      Js.occurs Js.CR p = false ->
      written o' = (written o ++ RESET :: (if Js.truthy p then [p] else []))%list.
Proof.
  intros Hx Hs Hc Hm Hl Ho Hr Ha.
  destruct (refresh_overlay_stage h st x surface getCommandForLine m
              Hx Hs Hc Hm Hl o Ho Hr) as (st' & o' & E & Eo & Ew & _ & Es).
  rewrite Ha in Es. simpl in Es.
  exists st', o', (recordSerialize (baseY (raw x) - line m) a).
  repeat split; try assumption.
  intros p rest Hser Hp. rewrite Ew. unfold refreshWrites, refreshContent.
  rewrite Ha, Hser.
  replace (Js.truthy (p ++ Js.cr ++ rest)) with true
    by (now destruct p).
  now rewrite extractContent_first_line.
Qed.

Lemma refresh_serializes_from_marker_witness :
  exists st' o' a',
    _refresh (sampleHost (Some (partialCommand 42)) twoLines)
      (readyState (sampleXterm 0 100)) = Returned st' /\
    _serializeAddon st' = Some a' /\
    serializeCalls a' = [58] /\
    _stickyScrollOverlay st' = Some o' /\
    forall p rest : string,
      twoLines = p ++ Js.cr ++ rest ->
      Js.occurs Js.CR p = false ->
      written o' = (RESET :: (if Js.truthy p then [p] else []))%list.
Proof.
  apply (refresh_serializes_from_marker
           (sampleHost (Some (partialCommand 42)) twoLines)
           (readyState (sampleXterm 0 100))
           (loadSerialize (sampleXterm 0 100))
           {| parentElement := Some tt |}
           (fun _ => Some (partialCommand 42))
           {| line := 42 |}
           (newOverlay 80)
           {| serializeCalls := [] |});
    solve [reflexivity | discriminate].
Defined.

(** C2, as stated, fails between the arrival of the overlay terminal and
    that of the serialize addon: the refresh resolves the marker of line
    42 with [baseY] 100 and the overlay terminal exists, yet no addon is
    called with 58 and the first line of the buffer is not written. *)
Lemma refresh_before_addon_counterexample :
  resolveMarker
    (commandAtViewport (sampleHost (Some (partialCommand 42)) twoLines)
       (overlayOnlyState (sampleXterm 0 100))) = Some {| line := 42 |} /\
  _stickyScrollOverlay (overlayOnlyState (sampleXterm 0 100)) =
    Some (newOverlay 80) /\
  ~ serializedAndWritten (sampleHost (Some (partialCommand 42)) twoLines)
      (overlayOnlyState (sampleXterm 0 100)) 58 "ls -la".
Proof.
  split; [reflexivity | split; [reflexivity |]].
  intros (st' & a & o' & E & Ea & _).
  vm_compute in E. injection E as <-. discriminate Ea.
Qed.

(** C9.  When the addon returns a non-empty string with no carriage
    return, the extracted content is the empty string and the refresh
    writes nothing but the reset sequence to the overlay terminal. *)
Theorem refresh_without_line_break (h : Host) (st : Contribution)
    (x : IXtermTerminal) (surface : SurfaceElement)
    (getCommandForLine : Z -> option Command) (m : IMarker) (o : Overlay)
    (a : SerializeAddon) :
  _xterm st = Some x ->
  element (raw x) = Some surface ->
  commandDetection h = Some getCommandForLine ->
  resolveMarker (getCommandForLine (viewportY (raw x))) = Some m ->
  line m <> -1 ->
  _stickyScrollOverlay st = Some o ->
  returned (_ensureElement h st) = true ->
  _serializeAddon st = Some a ->
  serialize h (baseY (raw x) - line m) <> "" ->
  Js.occurs Js.CR (serialize h (baseY (raw x) - line m)) = false ->
  extractContent (serialize h (baseY (raw x) - line m)) = "" /\
  exists st' o',
    _refresh h st = Returned st' /\
    _stickyScrollOverlay st' = Some o' /\
    written o' = (written o ++ [RESET])%list.
Proof.
  intros Hx Hs Hc Hm Hl Ho Hr Ha Hne Hcr.
  split; [now apply extractContent_no_cr |].
  destruct (refresh_overlay_stage h st x surface getCommandForLine m
              Hx Hs Hc Hm Hl o Ho Hr) as (st' & o' & E & Eo & Ew & _).
  exists st', o'. repeat split; try assumption.
  rewrite Ew. unfold refreshWrites, refreshContent. rewrite Ha.
  rewrite extractContent_no_cr by assumption.
  now destruct (Js.truthy (serialize h (baseY (raw x) - line m))).
Qed.

Lemma refresh_without_line_break_witness :
  extractContent "ls -la" = "" /\
  exists st' o',
    _refresh (sampleHost (Some (partialCommand 42)) "ls -la")
      (readyState (sampleXterm 0 100)) = Returned st' /\
    _stickyScrollOverlay st' = Some o' /\
    written o' = [RESET].
Proof.
  apply (refresh_without_line_break
           (sampleHost (Some (partialCommand 42)) "ls -la")
           (readyState (sampleXterm 0 100))
           (loadSerialize (sampleXterm 0 100))
           {| parentElement := Some tt |}
           (fun _ => Some (partialCommand 42))
           {| line := 42 |}
           (newOverlay 80)
           {| serializeCalls := [] |});
    solve [reflexivity | discriminate].
Defined.

(** ** The click on the hover overlay *)

(** C8.  A click on the click target while the terminal handle is set and
    a sticky marker is recorded adds exactly one request to the primary
    terminal, for the marker's line with [Middle] alignment; with no
    marker recorded the click changes nothing, so no request is issued. *)
Theorem click_scrolls_to_marker (st : Contribution) (e : HTMLElement) :
  _element st = Some e ->
  hoverOverlay e = true ->
  (forall (x : IXtermTerminal) (m : IMarker),
      _xterm st = Some x ->
      _currentStickyMarker st = Some m ->
      exists x',
        _xterm (click st) = Some x' /\
        scrollRequests x' = (scrollRequests x ++ [(line m, Middle)])%list /\
        raw x' = raw x) /\
  (_currentStickyMarker st = None -> click st = st).
Proof.
  intros He Hh. unfold click, onHoverClick. rewrite He, Hh. split.
  - intros x m Hx Hm. rewrite Hx, Hm. simpl. eexists. now repeat split.
  - intros Hm. rewrite Hm. now destruct (_xterm st).
Qed.

Lemma click_scrolls_to_marker_witness :
  (exists x',
      _xterm (click (with_marker (Some {| line := 17 |})
                       (elementState (sampleHost None "") (sampleXterm 0 100)))) =
        Some x' /\
      scrollRequests x' = [(17, Middle)] /\
      raw x' = raw (loadSerialize (sampleXterm 0 100))) /\
  click (elementState (sampleHost None "") (sampleXterm 0 100)) =
    elementState (sampleHost None "") (sampleXterm 0 100).
Proof.
  split.
  - apply (proj1 (click_scrolls_to_marker
                    (with_marker (Some {| line := 17 |})
                       (elementState (sampleHost None "") (sampleXterm 0 100)))
                    (appendHover (hostOverlay "" (attach createElement)))
                    eq_refl eq_refl)
             (loadSerialize (sampleXterm 0 100)) {| line := 17 |});
      reflexivity.
  - apply (proj2 (click_scrolls_to_marker
                    (elementState (sampleHost None "") (sampleXterm 0 100))
                    (appendHover (hostOverlay "" (attach createElement)))
                    eq_refl eq_refl));
      reflexivity.
Defined.

(** ** The rate limit *)

Lemma dispatch_bodyRuns (h : Host) (s : Scheduler) (e : Event) :
  bodyRuns (dispatch h s e) = bodyRuns s.
Proof. now destruct e. Qed.

Lemma dispatch_pending (h : Host) (s : Scheduler) (e : Event) :
  pending (dispatch h s e) = pending s || asksRefresh e.
Proof. destruct e; simpl; now rewrite ?orb_true_r, ?orb_false_r. Qed.

Lemma dispatchAll_bodyRuns (h : Host) (evs : list Event) :
  forall s, bodyRuns (dispatchAll h evs s) = bodyRuns s.
Proof.
  unfold dispatchAll. induction evs as [| e evs IH]; intros s; simpl.
  - reflexivity.
  - now rewrite IH, dispatch_bodyRuns.
Qed.

Lemma dispatchAll_pending (h : Host) (evs : list Event) :
  forall s, pending (dispatchAll h evs s) = pending s || existsb asksRefresh evs.
Proof.
  unfold dispatchAll. induction evs as [| e evs IH]; intros s; simpl.
  - now rewrite orb_false_r.
  - now rewrite IH, dispatch_pending, orb_assoc.
Qed.

(** C3.  Whatever events a turn dispatches, the body of the refresh
    routine runs at most once in it: once, at the end of the turn and on
    the state the last event left, when a scroll or line-feed event was
    among them, and not at all otherwise; nothing stays pending for a
    later turn. *)
Theorem refresh_runs_once_per_turn (h : Host) (evs : list Event)
    (st : Contribution) (n : nat) :
  (bodyRuns (runTurn h evs (idle st n)) <= S n)%nat /\
  bodyRuns (runTurn h evs (idle st n)) =
    (if existsb asksRefresh evs then S n else n) /\
  pending (runTurn h evs (idle st n)) = false /\
  controller (runTurn h evs (idle st n)) =
    (if existsb asksRefresh evs
     then stateOf (_refresh h (controller (dispatchAll h evs (idle st n))))
     else controller (dispatchAll h evs (idle st n))).
Proof.
  unfold runTurn, endOfTurn.
  pose proof (dispatchAll_pending h evs (idle st n)) as Hp.
  pose proof (dispatchAll_bodyRuns h evs (idle st n)) as Hb.
  simpl in Hp, Hb.
  destruct (existsb asksRefresh evs); rewrite Hp; simpl; rewrite ?Hb, ?Hp;
    repeat split; lia.
Qed.

(** Five scroll and line-feed events in one turn: one execution, on the
    viewport of the last scroll event. *)
Example five_events_one_refresh :
  let s := runTurn (sampleHost (Some (partialCommand 42)) twoLines)
             [Scroll 3; LineFeed; Scroll 7; LineFeed; Scroll 11]
             (idle (readyState (sampleXterm 0 100)) 0) in
  bodyRuns s = 1%nat /\
  option_map (fun x => viewportY (raw x)) (_xterm (controller s)) = Some 11 /\
  option_map written (_stickyScrollOverlay (controller s)) =
    Some [RESET; "ls -la"].
Proof. repeat split. Qed.

(** ** Visibility of the element *)

Lemma showOrHide_display (e : HTMLElement) :
  display (showOrHide e) = if String.eqb (textContent e) "" then Hidden else Shown.
Proof. unfold showOrHide. now destruct (String.eqb (textContent e) ""). Qed.




(** C5, on the code.  The visibility a refresh leaves follows the text
    content of the element, which the routine never assigns, and not the
    serialized content: an element without text is hidden although the
    content ["ls -la"] is extracted and written, and an element with text
    is shown although the addon returns the empty string. *)
Theorem refresh_visibility_ignores_content :
  (exists st',
      _refresh (sampleHost (Some (partialCommand 42)) twoLines)
        (elementState (sampleHost None "") (sampleXterm 0 100)) = Returned st' /\
      option_map written (_stickyScrollOverlay st') = Some [RESET; "ls -la"] /\
      option_map display (_element st') = Some Hidden) /\
  (exists st',
      _refresh (hostWith (Some (partialCommand 42)) "" "W")
        (elementState (hostWith None "" "W") (sampleXterm 0 100)) = Returned st' /\
      option_map written (_stickyScrollOverlay st') = Some [RESET] /\
      option_map display (_element st') = Some Shown).
Proof.
  split; vm_compute; eexists; repeat split.
Qed.

(** ** The buffer-change listener *)

(** X17.  When the element exists or can be created, the listener shows
    it for the normal buffer and hides it for the alternate one. *)
Lemma bufferChange_sets_visibility (h : Host) (ty : BufferType) (st : Contribution) :
  returned (_ensureElement h st) = true ->
  exists st' e,
    onBufferChange h ty st = Returned st' /\
    _element st' = Some e /\
    display e = match ty with normal => Shown | alternate => Hidden end.
Proof.
  intros Hr. unfold onBufferChange.
  destruct (_ensureElement h st) as [s | s] eqn:He; [| discriminate].
  destruct (ensureElement_frame _ _ _ He) as (_ & _ & _ & _ & e & Hel).
  rewrite Hel. simpl. eexists. eexists. split; [reflexivity |].
  split; [reflexivity |]. now destruct ty.
Qed.

(** C7, on the code.  A buffer-change event for the alternate buffer that
    arrives before the overlay terminal is constructed, or before the
    primary terminal has a rendered surface, makes the listener throw in
    [_ensureElement]: the element has been created by then and stays
    shown. *)
Theorem bufferChange_throws_before_overlay :
  (exists st',
      onBufferChange (sampleHost None "") alternate
        (xtermReady (sampleXterm 0 0) initial) = Threw st' /\
      option_map display (_element st') = Some Shown /\
      option_map attached (_element st') = Some true) /\
  (exists st',
      onBufferChange (sampleHost None "") alternate
        (xtermReady detachedXterm initial) = Threw st' /\
      option_map display (_element st') = Some Shown).
Proof.
  split; vm_compute; eexists; repeat split.
Qed.

(** * Further properties of the controller *)

(** ** What the operations leave alone *)

Lemma sameButDisplay_refl (e : HTMLElement) : sameButDisplay e e.
Proof. now repeat split. Qed.

Lemma sameButDisplay_trans (e1 e2 e3 : HTMLElement) :
  sameButDisplay e1 e2 -> sameButDisplay e2 e3 -> sameButDisplay e1 e3.
Proof.
  unfold sameButDisplay. intros (A1 & A2 & A3 & A4) (B1 & B2 & B3 & B4).
  repeat split; congruence.
Qed.

Lemma showOrHide_same (e : HTMLElement) : sameButDisplay e (showOrHide e).
Proof. unfold showOrHide. destruct (String.eqb (textContent e) ""); now repeat split. Qed.

Lemma setVisibility_same (b : bool) (e : HTMLElement) :
  sameButDisplay e (setVisibility b e).
Proof. destruct b; now repeat split. Qed.

(** The three ways a refresh ends: at the first guard, at a later guard
    with the marker cleared, or past the guards with a valid marker. *)
Lemma refresh_cases (h : Host) (st : Contribution) :
  _refresh h st = Returned st \/
  _refresh h st = Returned (with_marker None st) \/
  exists x m,
    _xterm st = Some x /\
    ((exists s, _ensureElement h st = Threw s /\
                _refresh h st = Threw (with_marker (Some m) s)) \/
     (exists s, _ensureElement h st = Returned s /\
                _refresh h st =
                Returned
                  (overlayStage h x m
                     (with_element (option_map showOrHide (_element s))
                        (with_marker (Some m) s))))).
Proof.
  destruct (_xterm st) as [x |] eqn:Hx;
    [| left; now apply refresh_no_xterm].
  destruct (element (raw x)) as [sf |] eqn:Hs;
    [| left; now apply (refresh_no_surface h st x)].
  destruct (commandDetection h) as [g |] eqn:Hc;
    [| right; left; unfold _refresh; now rewrite Hx, Hs, Hc].
  destruct (resolveMarker (g (viewportY (raw x)))) as [m |] eqn:Hm;
    [| right; left; unfold _refresh; now rewrite Hx, Hs, Hc, Hm].
  destruct (Z.eqb_spec (line m) (-1)) as [E | E].
  - right; left. unfold _refresh. rewrite Hx, Hs, Hc, Hm.
    now rewrite (proj2 (Z.eqb_eq _ _) E).
  - right; right. exists x, m. split; [reflexivity |].
    rewrite (refresh_valid h st x sf g m Hx Hs Hc Hm E).
    destruct (_ensureElement h st) as [s | s]; [right | left]; now exists s.
Qed.

(** A projection that the pieces of a refresh leave alone is left alone
    by the refresh. *)
Lemma refresh_preserves {A : Type} (f : Contribution -> A) :
  (forall v st, f (with_marker v st) = f st) ->
  (forall v st, f (with_element v st) = f st) ->
  (forall h st, f (stateOf (_ensureElement h st)) = f st) ->
  (forall h x m st, f (overlayStage h x m st) = f st) ->
  forall h st, f (stateOf (_refresh h st)) = f st.
Proof.
  intros Hm He Hen Ho h st.
  destruct (refresh_cases h st) as [E | [E | (x & m & _ & [(s & E1 & E) | (s & E1 & E)])]];
    rewrite E; simpl; rewrite ?Ho, ?He, ?Hm; try reflexivity;
    now rewrite <- (Hen h st), E1.
Qed.

Lemma bufferChange_preserves {A : Type} (f : Contribution -> A) :
  (forall v st, f (with_element v st) = f st) ->
  (forall h st, f (stateOf (_ensureElement h st)) = f st) ->
  forall h ty st, f (stateOf (onBufferChange h ty st)) = f st.
Proof.
  intros He Hen h ty st. unfold onBufferChange.
  specialize (Hen h st).
  destruct (_ensureElement h st) as [s | s]; simpl in *; now rewrite ?He.
Qed.

Ltac run_stage :=
  intros; unfold overlayStage, writeContent; simpl; split_options;
  repeat match goal with
         | |- context [if ?b then _ else _] => destruct b; simpl
         end;
  repeat match goal with
         | H : _ = _ |- _ => rewrite H; simpl
         end;
  try reflexivity; try congruence.

Ltac run_ensure :=
  intros; split_ensure;
  repeat match goal with
         | H : _ = _ |- _ => rewrite H; simpl
         end;
  try reflexivity; try congruence.

Lemma refresh_xterm (h : Host) (st : Contribution) :
  _xterm (stateOf (_refresh h st)) = _xterm st.
Proof.
  revert h st.
  apply (refresh_preserves _xterm);
    [reflexivity | reflexivity | run_ensure | run_stage].
Qed.

Lemma bufferChange_xterm (h : Host) (ty : BufferType) (st : Contribution) :
  _xterm (stateOf (onBufferChange h ty st)) = _xterm st.
Proof.
  revert h ty st. apply (bufferChange_preserves _xterm); [reflexivity | run_ensure].
Qed.

Lemma refresh_canvasAddon (h : Host) (st : Contribution) :
  _canvasAddon (stateOf (_refresh h st)) = _canvasAddon st.
Proof.
  revert h st.
  apply (refresh_preserves _canvasAddon);
    [reflexivity | reflexivity | run_ensure | run_stage].
Qed.

Lemma bufferChange_canvasAddon (h : Host) (ty : BufferType) (st : Contribution) :
  _canvasAddon (stateOf (onBufferChange h ty st)) = _canvasAddon st.
Proof.
  revert h ty st.
  apply (bufferChange_preserves _canvasAddon); [reflexivity | run_ensure].
Qed.

Lemma refresh_serializeAddon (h : Host) (st : Contribution) :
  present (_serializeAddon (stateOf (_refresh h st))) = present (_serializeAddon st).
Proof.
  revert h st.
  apply (refresh_preserves (fun st => present (_serializeAddon st)));
    [reflexivity | reflexivity | run_ensure | run_stage].
Qed.

Lemma bufferChange_serializeAddon (h : Host) (ty : BufferType) (st : Contribution) :
  _serializeAddon (stateOf (onBufferChange h ty st)) = _serializeAddon st.
Proof.
  revert h ty st.
  apply (bufferChange_preserves _serializeAddon); [reflexivity | run_ensure].
Qed.

Lemma refresh_overlay_present (h : Host) (st : Contribution) :
  present (_stickyScrollOverlay (stateOf (_refresh h st))) =
  present (_stickyScrollOverlay st).
Proof.
  revert h st.
  apply (refresh_preserves (fun st => present (_stickyScrollOverlay st)));
    [reflexivity | reflexivity | run_ensure | run_stage].
Qed.

Lemma bufferChange_overlay_present (h : Host) (ty : BufferType) (st : Contribution) :
  present (_stickyScrollOverlay (stateOf (onBufferChange h ty st))) =
  present (_stickyScrollOverlay st).
Proof.
  revert h ty st.
  apply (bufferChange_preserves (fun st => present (_stickyScrollOverlay st)));
    [reflexivity | run_ensure].
Qed.

Lemma refresh_canvasLoaded (h : Host) (st : Contribution) :
  option_map canvasLoaded (_stickyScrollOverlay (stateOf (_refresh h st))) =
  option_map canvasLoaded (_stickyScrollOverlay st).
Proof.
  revert h st.
  apply (refresh_preserves
           (fun st => option_map canvasLoaded (_stickyScrollOverlay st)));
    [reflexivity | reflexivity | run_ensure | run_stage].
Qed.

Lemma bufferChange_canvasLoaded (h : Host) (ty : BufferType) (st : Contribution) :
  option_map canvasLoaded (_stickyScrollOverlay (stateOf (onBufferChange h ty st))) =
  option_map canvasLoaded (_stickyScrollOverlay st).
Proof.
  revert h ty st.
  apply (bufferChange_preserves
           (fun st => option_map canvasLoaded (_stickyScrollOverlay st)));
    [reflexivity | run_ensure].
Qed.

(** ** Invariants of the operations *)

(** A property kept by the pieces of a refresh is kept by the refresh,
    however it ends. *)
Lemma refresh_invariant (P : Contribution -> Prop) :
  (forall v st, P st -> P (with_marker v st)) ->
  (forall st, P st -> P (with_element (option_map showOrHide (_element st)) st)) ->
  (forall h st, P st -> P (stateOf (_ensureElement h st))) ->
  (forall h x m st, P st -> P (overlayStage h x m st)) ->
  forall h st, P st -> P (stateOf (_refresh h st)).
Proof.
  intros Hm Hv Hen Ho h st HP.
  destruct (refresh_cases h st)
    as [E | [E | (x & m & _ & [(s & E1 & E) | (s & E1 & E)])]];
    rewrite E; simpl; auto.
  - apply Hm. specialize (Hen h st HP). now rewrite E1 in Hen.
  - apply Ho.
    apply (Hv (with_marker (Some m) s)). apply Hm.
    specialize (Hen h st HP). now rewrite E1 in Hen.
Qed.

Lemma bufferChange_invariant (P : Contribution -> Prop) :
  (forall b st, P st -> P (with_element (option_map (setVisibility b) (_element st)) st)) ->
  (forall h st, P st -> P (stateOf (_ensureElement h st))) ->
  forall h ty st, P st -> P (stateOf (onBufferChange h ty st)).
Proof.
  intros Hv Hen h ty st HP. unfold onBufferChange.
  specialize (Hen h st HP).
  destruct (_ensureElement h st) as [s | s]; simpl in *; auto.
Qed.

(** A property kept by every action is kept by every run. *)
Lemma performAll_invariant (P : System -> Prop) :
  (forall sys ha, P sys -> P (perform sys ha)) ->
  forall l sys, P sys -> P (performAll l sys).
Proof.
  intros Hstep. unfold performAll.
  induction l as [| ha l IH]; intros sys HP; simpl; auto.
Qed.

(** *** The element, once created *)

Lemma keepsElement_refresh (e : HTMLElement) (h : Host) (st : Contribution) :
  keepsElement e st -> keepsElement e (stateOf (_refresh h st)).
Proof.
  revert h st. apply refresh_invariant.
  - intros v st H. exact H.
  - intros st (e' & E & S). exists (showOrHide e'). simpl. rewrite E. split;
      [reflexivity | eapply sameButDisplay_trans; eauto using showOrHide_same].
  - intros h st (e' & E & S). rewrite (ensureElement_existing h st e' E).
    now exists e'.
  - intros h x m st (e' & E & S). exists e'. split; [| assumption].
    rewrite <- E. clear. run_stage.
Qed.

Lemma keepsElement_bufferChange (e : HTMLElement) (h : Host) (ty : BufferType)
    (st : Contribution) :
  keepsElement e st -> keepsElement e (stateOf (onBufferChange h ty st)).
Proof.
  revert h ty st. apply bufferChange_invariant.
  - intros b st (e' & E & S). exists (setVisibility b e'). simpl. rewrite E.
    split; [reflexivity | eapply sameButDisplay_trans; eauto using setVisibility_same].
  - intros h st (e' & E & S). rewrite (ensureElement_existing h st e' E).
    now exists e'.
Qed.

Lemma click_element (st : Contribution) : _element (click st) = _element st.
Proof.
  unfold click, onHoverClick.
  destruct (_element st) as [e |] eqn:E; [| now rewrite E].
  destruct (hoverOverlay e); [| now rewrite E].
  destruct (_xterm st), (_currentStickyMarker st); simpl; now rewrite ?E.
Qed.

Lemma canvasAddonLoaded_element (st : Contribution) :
  _element (canvasAddonLoaded st) = _element st.
Proof.
  unfold canvasAddonLoaded. destruct (_xterm st) as [x |]; [| reflexivity].
  now destruct (isGpuAccelerated x).
Qed.

Lemma overlayConstructed_element (st : Contribution) :
  _element (overlayConstructed st) = _element st.
Proof. unfold overlayConstructed. now destruct (_xterm st). Qed.




(** *** Listeners *)

Lemma overlayStage_element (h : Host) (x : IXtermTerminal) (m : IMarker)
    (st : Contribution) :
  _element (overlayStage h x m st) = _element st.
Proof. run_stage. Qed.

Lemma overlayStage_disposables (h : Host) (x : IXtermTerminal) (m : IMarker)
    (st : Contribution) :
  disposables (overlayStage h x m st) = disposables st.
Proof. run_stage. Qed.

Lemma listenersOk_ensure (h : Host) (st : Contribution) :
  listenersOk st -> listenersOk (stateOf (_ensureElement h st)).
Proof.
  unfold listenersOk, attachedCount, _ensureElement.
  destruct (_element st) as [e |] eqn:He; simpl.
  - now rewrite He.
  - intros H.
    destruct (_xterm st) as [x |]; simpl; [| now rewrite H].
    destruct (element (raw x)) as [sf |]; simpl; [| now rewrite H].
    destruct (parentElement sf); simpl; [| now rewrite H].
    destruct (_stickyScrollOverlay st); simpl; now rewrite H.
Qed.

Lemma listenersOk_refresh (h : Host) (st : Contribution) :
  listenersOk st -> listenersOk (stateOf (_refresh h st)).
Proof.
  revert h st. apply refresh_invariant.
  - intros v st H. exact H.
  - intros st. unfold listenersOk, attachedCount. simpl.
    destruct (_element st) as [e |]; simpl; [| auto].
    unfold showOrHide. now destruct (String.eqb (textContent e) "").
  - apply listenersOk_ensure.
  - intros h x m st. unfold listenersOk, attachedCount.
    now rewrite overlayStage_element, overlayStage_disposables.
Qed.

Lemma listenersOk_bufferChange (h : Host) (ty : BufferType) (st : Contribution) :
  listenersOk st -> listenersOk (stateOf (onBufferChange h ty st)).
Proof.
  revert h ty st. apply bufferChange_invariant.
  - intros b st. unfold listenersOk, attachedCount. simpl.
    destruct (_element st) as [e |]; simpl; [| auto]. now destruct b.
  - apply listenersOk_ensure.
Qed.

Lemma click_disposables (st : Contribution) : disposables (click st) = disposables st.
Proof.
  unfold click, onHoverClick.
  destruct (_element st) as [e |]; [| reflexivity].
  destruct (hoverOverlay e); [| reflexivity].
  destruct (_xterm st), (_currentStickyMarker st); reflexivity.
Qed.

Lemma listenersOk_perform (sys : System) (ha : Host * Action) :
  listenersOk (ctrl sys) -> listenersOk (ctrl (perform sys ha)).
Proof.
  destruct ha as [h a]. intros H. destruct a; simpl.
  - now apply listenersOk_refresh.
  - now apply listenersOk_bufferChange.
  - unfold listenersOk, attachedCount in *.
    now rewrite click_element, click_disposables.
  - unfold ctorResolved. destruct (ctorPending sys); simpl; [| assumption].
    unfold overlayConstructed. now destruct (_xterm (ctrl sys)).
  - unfold serializeResolved. now destruct (serializePending sys).
  - unfold canvasResolved. destruct (canvasPending sys); simpl; [| assumption].
    unfold canvasAddonLoaded. destruct (_xterm (ctrl sys)) as [x |]; [| assumption].
    now destruct (isGpuAccelerated x).
  - assumption.
Qed.

(** X3.  Whatever happens after [xtermReady], the controller holds the
    three listeners of [xtermReady] and, once the element is attached, the
    one click listener: never more than four, and the click listener is
    never registered twice. *)
Theorem listeners_are_bounded (x : IXtermTerminal) (l : list (Host * Action)) :
  disposables (ctrl (performAll l (boot x))) =
    (3 + attachedCount (ctrl (performAll l (boot x))))%nat /\
  (3 <= disposables (ctrl (performAll l (boot x))) <= 4)%nat.
Proof.
  assert (H : listenersOk (ctrl (performAll l (boot x)))).
  { apply (performAll_invariant (fun s => listenersOk (ctrl s))).
    - apply listenersOk_perform.
    - reflexivity. }
  split; [exact H |].
  unfold listenersOk, attachedCount in H. rewrite H.
  destruct (_element (ctrl (performAll l (boot x)))) as [e |];
    [destruct (attached e) |]; lia.
Qed.

(** *** The overlay terminal *)

Lemma oneRow_same (st st' : Contribution) :
  option_map rows (_stickyScrollOverlay st') =
    option_map rows (_stickyScrollOverlay st) ->
  oneRow st -> oneRow st'.
Proof.
  unfold oneRow. intros E H o' Ho'. rewrite Ho' in E.
  destruct (_stickyScrollOverlay st) as [o |]; [| discriminate].
  injection E as ->. now apply H.
Qed.

Lemma ensureElement_rows (h : Host) (st : Contribution) :
  option_map rows (_stickyScrollOverlay (stateOf (_ensureElement h st))) =
  option_map rows (_stickyScrollOverlay st).
Proof. run_ensure. Qed.

Lemma overlayStage_rows (h : Host) (x : IXtermTerminal) (m : IMarker)
    (st : Contribution) :
  option_map rows (_stickyScrollOverlay (overlayStage h x m st)) =
  option_map (fun _ => 1) (_stickyScrollOverlay st).
Proof. run_stage. Qed.

Lemma click_overlay (st : Contribution) :
  _stickyScrollOverlay (click st) = _stickyScrollOverlay st.
Proof.
  unfold click, onHoverClick.
  destruct (_element st) as [e |]; [| reflexivity].
  destruct (hoverOverlay e); [| reflexivity].
  destruct (_xterm st), (_currentStickyMarker st); reflexivity.
Qed.

Lemma oneRow_refresh (h : Host) (st : Contribution) :
  oneRow st -> oneRow (stateOf (_refresh h st)).
Proof.
  revert h st. apply refresh_invariant.
  - intros v st H. exact H.
  - intros st H. exact H.
  - intros h st. apply oneRow_same, ensureElement_rows.
  - intros h x m st _ o' Ho'.
    pose proof (overlayStage_rows h x m st) as E. rewrite Ho' in E.
    destruct (_stickyScrollOverlay st); [now injection E | discriminate].
Qed.

Lemma oneRow_bufferChange (h : Host) (ty : BufferType) (st : Contribution) :
  oneRow st -> oneRow (stateOf (onBufferChange h ty st)).
Proof.
  revert h ty st. apply bufferChange_invariant.
  - intros b st H. exact H.
  - intros h st. apply oneRow_same, ensureElement_rows.
Qed.

Lemma oneRow_perform (sys : System) (ha : Host * Action) :
  oneRow (ctrl sys) -> oneRow (ctrl (perform sys ha)).
Proof.
  destruct ha as [h a]. intros H. destruct a; simpl.
  - now apply oneRow_refresh.
  - now apply oneRow_bufferChange.
  - unfold oneRow. now rewrite click_overlay.
  - unfold ctorResolved. destruct (ctorPending sys); simpl; [| assumption].
    unfold overlayConstructed. destruct (_xterm (ctrl sys)); [| assumption].
    intros o Ho. simpl in Ho. now injection Ho as <-.
  - unfold serializeResolved. now destruct (serializePending sys).
  - unfold canvasResolved. destruct (canvasPending sys); simpl; [| assumption].
    unfold canvasAddonLoaded. destruct (_xterm (ctrl sys)) as [x |]; [| assumption].
    destruct (isGpuAccelerated x); [| assumption].
    intros o Ho. simpl in Ho.
    destruct (_stickyScrollOverlay (ctrl sys)) as [o1 |] eqn:E; [| discriminate].
    injection Ho as <-. simpl. now apply H.
  - assumption.
Qed.

(** X4.  Whatever happens after [xtermReady], the overlay terminal has
    exactly one row whenever it exists: it is built with one row and
    every option synchronisation resizes it to one row. *)
Theorem overlay_has_one_row (x : IXtermTerminal) (l : list (Host * Action))
    (o : Overlay) :
  _stickyScrollOverlay (ctrl (performAll l (boot x))) = Some o -> rows o = 1.
Proof.
  revert o.
  apply (performAll_invariant (fun s => oneRow (ctrl s))).
  - apply oneRow_perform.
  - intros o Ho. discriminate Ho.
Qed.

Lemma overlay_has_one_row_witness :
  rows (_syncOptions (loadSerialize (sampleXterm 0 100))
          (write "ls -la" (write RESET (open (newOverlay 80))))) = 1.
Proof.
  apply (overlay_has_one_row (sampleXterm 0 100)
           [(sampleHost None "", ACtorResolved);
            (sampleHost None "", ASerializeResolved);
            (sampleHost (Some (partialCommand 42)) twoLines, ARefresh)]).
  reflexivity.
Defined.

(** *** The order of construction *)

Lemma click_frame (st : Contribution) :
  present (_xterm (click st)) = present (_xterm st) /\
  gpuOf (click st) = gpuOf st /\
  _serializeAddon (click st) = _serializeAddon st /\
  _canvasAddon (click st) = _canvasAddon st.
Proof.
  unfold click, onHoverClick, gpuOf.
  destruct (_element st) as [e |]; [| now repeat split].
  destruct (hoverOverlay e); [| now repeat split].
  destruct (_xterm st) eqn:Hx, (_currentStickyMarker st); simpl;
    rewrite ?Hx; now repeat split.
Qed.

Lemma loadOrder_perform (sys : System) (ha : Host * Action) :
  loadOrder sys -> loadOrder (perform sys ha).
Proof.
  destruct ha as [h a]. unfold loadOrder.
  intros (Hx & Hc & Hsp & Hs & Hcp & Hca). destruct a; simpl.
  - unfold gpuOf.
    rewrite refresh_xterm, refresh_overlay_present, refresh_serializeAddon,
      refresh_canvasAddon, refresh_canvasLoaded.
    tauto.
  - unfold gpuOf.
    rewrite bufferChange_xterm, bufferChange_overlay_present,
      bufferChange_serializeAddon, bufferChange_canvasAddon,
      bufferChange_canvasLoaded.
    tauto.
  - destruct (click_frame (ctrl sys)) as (E1 & E2 & E3 & E4).
    rewrite E1, E2, E3, E4, click_overlay. tauto.
  - unfold ctorResolved. destruct (ctorPending sys) eqn:Ep; simpl;
      [| intuition congruence].
    unfold overlayConstructed, gpuOf in *.
    destruct (_xterm (ctrl sys)) as [x |] eqn:Ex; [| discriminate].
    simpl. rewrite Ex.
    assert (Hno : present (_stickyScrollOverlay (ctrl sys)) = false)
      by (now destruct (present (_stickyScrollOverlay (ctrl sys)))).
    assert (Hnc : _canvasAddon (ctrl sys) = true -> False).
    { intros Hc'. specialize (Hca Hc') as (_ & Hl).
      destruct (_stickyScrollOverlay (ctrl sys)); discriminate. }
    intuition auto.
  - unfold serializeResolved. destruct (serializePending sys) eqn:Ep; simpl;
      [| intuition congruence].
    unfold gpuOf in *.
    destruct (_xterm (ctrl sys)) as [x |] eqn:Ex; [| discriminate].
    simpl; rewrite ?Ex; simpl. intuition (auto; try discriminate; try congruence).
  - unfold canvasResolved. destruct (canvasPending sys) eqn:Ep; simpl;
      [| intuition congruence].
    destruct (Hcp eq_refl) as (Ho & Hg).
    unfold canvasAddonLoaded, gpuOf in *.
    destruct (_xterm (ctrl sys)) as [x |] eqn:Ex; [| discriminate].
    rewrite Hg. simpl. rewrite Ex.
    destruct (_stickyScrollOverlay (ctrl sys)) as [o |] eqn:Eo; [| discriminate].
    simpl; rewrite ?Ex; simpl. intuition (auto; try discriminate; try congruence).
  - unfold gpuOf in *.
    destruct (_xterm (ctrl sys)) as [x |] eqn:Ex; [| discriminate].
    simpl; rewrite ?Ex; simpl. tauto.
Qed.

Lemma gpuOf_perform (sys : System) (ha : Host * Action) :
  gpuOf (ctrl (perform sys ha)) = gpuOf (ctrl sys).
Proof.
  destruct ha as [h a]. unfold gpuOf. destruct a; simpl.
  - now rewrite refresh_xterm.
  - now rewrite bufferChange_xterm.
  - apply click_frame.
  - unfold ctorResolved. destruct (ctorPending sys); [| reflexivity].
    simpl. unfold overlayConstructed.
    destruct (_xterm (ctrl sys)) eqn:E; simpl; now rewrite E.
  - unfold serializeResolved. destruct (serializePending sys); [| reflexivity].
    simpl. now destruct (_xterm (ctrl sys)).
  - unfold canvasResolved. destruct (canvasPending sys); [| reflexivity].
    simpl. unfold canvasAddonLoaded.
    destruct (_xterm (ctrl sys)) as [x' |] eqn:E; [| now rewrite E].
    destruct (isGpuAccelerated x') eqn:E'; simpl; now rewrite E.
  - now destruct (_xterm (ctrl sys)).
Qed.

(** X5.  Whatever happens after [xtermReady], the serialize addon exists
    only when the overlay terminal does, and the canvas addon exists only
    for a GPU-accelerated primary terminal and is then loaded into the
    overlay terminal. *)
Theorem addons_follow_overlay (x : IXtermTerminal) (l : list (Host * Action)) :
  (present (_serializeAddon (ctrl (performAll l (boot x)))) = true ->
   present (_stickyScrollOverlay (ctrl (performAll l (boot x)))) = true) /\
  (_canvasAddon (ctrl (performAll l (boot x))) = true ->
   isGpuAccelerated x = true /\
   option_map canvasLoaded (_stickyScrollOverlay (ctrl (performAll l (boot x)))) =
     Some true).
Proof.
  assert (H : loadOrder (performAll l (boot x)) /\
              gpuOf (ctrl (performAll l (boot x))) = isGpuAccelerated x).
  { apply (performAll_invariant
             (fun s => loadOrder s /\ gpuOf (ctrl s) = isGpuAccelerated x)).
    - intros s ha (Hl & Hg). split; [now apply loadOrder_perform |].
      now rewrite gpuOf_perform.
    - split; [| reflexivity]. unfold loadOrder. simpl.
      repeat split; discriminate. }
  destruct H as ((_ & _ & _ & Hs & _ & Hca) & Hg).
  split; [exact Hs |]. intros Hc. rewrite <- Hg. now apply Hca.
Qed.

Lemma addons_follow_overlay_witness :
  present (_stickyScrollOverlay
             (ctrl (performAll
                      [(sampleHost None "", ACtorResolved);
                       (sampleHost None "", ACanvasResolved);
                       (sampleHost None "", ASerializeResolved)]
                      (boot gpuXterm)))) = true /\
  isGpuAccelerated gpuXterm = true /\
  option_map canvasLoaded
    (_stickyScrollOverlay
       (ctrl (performAll
                [(sampleHost None "", ACtorResolved);
                 (sampleHost None "", ACanvasResolved);
                 (sampleHost None "", ASerializeResolved)]
                (boot gpuXterm)))) = Some true.
Proof.
  destruct (addons_follow_overlay gpuXterm
              [(sampleHost None "", ACtorResolved);
               (sampleHost None "", ACanvasResolved);
               (sampleHost None "", ASerializeResolved)]) as [H1 H2].
  split; [apply H1; reflexivity | apply H2; reflexivity].
Defined.

(** *** Throwing listeners *)

Lemma ensureElement_threw (h : Host) (st s : Contribution) :
  _ensureElement h st = Threw s ->
  _element st = None /\ present (_element s) = true.
Proof.
  unfold _ensureElement.
  destruct (_element st) as [e |]; [discriminate |]. simpl.
  destruct (_xterm st) as [x |]; simpl;
    [| intros H; injection H as <-; now split].
  destruct (element (raw x)) as [sf |]; simpl;
    [| intros H; injection H as <-; now split].
  destruct (parentElement sf); simpl;
    [| intros H; injection H as <-; now split].
  destruct (_stickyScrollOverlay st); simpl;
    [discriminate | intros H; injection H as <-; now split].
Qed.

Lemma refresh_threw (h : Host) (st : Contribution) :
  returned (_refresh h st) = false ->
  _element st = None /\ present (_element (stateOf (_refresh h st))) = true.
Proof.
  destruct (refresh_cases h st)
    as [E | [E | (x & m & _ & [(s & E1 & E) | (s & E1 & E)])]];
    rewrite E; simpl; try discriminate.
  intros _. now apply (ensureElement_threw h st s).
Qed.

Lemma bufferChange_threw (h : Host) (ty : BufferType) (st : Contribution) :
  returned (onBufferChange h ty st) = false ->
  _element st = None /\
  present (_element (stateOf (onBufferChange h ty st))) = true.
Proof.
  unfold onBufferChange.
  destruct (_ensureElement h st) as [s | s] eqn:E; simpl; [discriminate |].
  intros _. now apply (ensureElement_threw h st s).
Qed.

Lemma keepsElement_present (e : HTMLElement) (st : Contribution) :
  keepsElement e st -> present (_element st) = true.
Proof. intros (e' & E & _). now rewrite E. Qed.

Lemma throwsOk_settle (o : Outcome) (sys : System) :
  throwsOk sys ->
  (forall e, _element (ctrl sys) = Some e -> present (_element (stateOf o)) = true) ->
  (returned o = false ->
   _element (ctrl sys) = None /\ present (_element (stateOf o)) = true) ->
  throwsOk (settle o sys).
Proof.
  unfold throwsOk. intros (H0 & H1) Hkeep Hthrew. simpl.
  destruct (returned o) eqn:Er.
  - split; [| assumption]. intros Hn. apply H0.
    destruct (_element (ctrl sys)) as [e |] eqn:E; [| reflexivity].
    rewrite (Hkeep e eq_refl) in Hn. discriminate.
  - destruct (Hthrew eq_refl) as (Hnone & Hsome). split.
    + intros Hn. rewrite Hsome in Hn. discriminate.
    + rewrite H0; [lia | now rewrite Hnone].
Qed.

Lemma throwsOk_perform (sys : System) (ha : Host * Action) :
  throwsOk sys -> throwsOk (perform sys ha).
Proof.
  destruct ha as [h a]. intros H. destruct a; simpl.
  - apply throwsOk_settle; [assumption | | apply refresh_threw].
    intros e He. apply (keepsElement_present e), keepsElement_refresh.
    exists e. split; [assumption | apply sameButDisplay_refl].
  - apply throwsOk_settle; [assumption | | apply bufferChange_threw].
    intros e He. apply (keepsElement_present e), keepsElement_bufferChange.
    exists e. split; [assumption | apply sameButDisplay_refl].
  - unfold throwsOk in *. simpl. now rewrite click_element.
  - unfold ctorResolved. destruct (ctorPending sys); [| assumption].
    unfold throwsOk in *. simpl. now rewrite overlayConstructed_element.
  - unfold serializeResolved. now destruct (serializePending sys).
  - unfold canvasResolved. destruct (canvasPending sys); [| assumption].
    unfold throwsOk in *. simpl. now rewrite canvasAddonLoaded_element.
  - assumption.
Qed.

(** X6.  Whatever happens after [xtermReady], at most one listener call
    ever ends in a [TypeError]: the element is stored before anything can
    throw, and with the element stored neither the refresh nor the
    buffer-change listener can throw again. *)
Theorem at_most_one_throw (x : IXtermTerminal) (l : list (Host * Action)) :
  (throws (performAll l (boot x)) <= 1)%nat.
Proof.
  apply (performAll_invariant throwsOk).
  - apply throwsOk_perform.
  - split; [reflexivity | simpl; lia].
Qed.

(** The bound is reached: a buffer change before the overlay terminal is
    there throws, and the same event again does not. *)
Example one_throw_happens :
  throws
    (performAll
       [(sampleHost None "", ABufferChange alternate);
        (sampleHost None "", ABufferChange alternate);
        (sampleHost (Some (partialCommand 42)) twoLines, ARefresh)]
       (boot (sampleXterm 0 100))) = 1%nat.
Proof. reflexivity. Qed.

(** *** Scroll requests *)

Lemma click_requests (st : Contribution) :
  exists l',
    requestsOf (click st) = (requestsOf st ++ l')%list /\
    Forall (fun r => snd r = Middle) l' /\
    (List.length l' <= 1)%nat.
Proof.
  unfold click, onHoverClick, requestsOf.
  destruct (_element st) as [e |];
    [| exists []; rewrite app_nil_r; repeat split; [constructor | simpl; lia]].
  destruct (hoverOverlay e);
    [| exists []; rewrite app_nil_r; repeat split; [constructor | simpl; lia]].
  destruct (_xterm st) as [x |] eqn:Hx;
    [| exists []; simpl; rewrite Hx; repeat split; [constructor | simpl; lia]].
  destruct (_currentStickyMarker st) as [m |].
  - exists [(line m, Middle)]. simpl. repeat split.
    + repeat constructor.
    + lia.
  - exists []. rewrite Hx, app_nil_r. repeat split; [constructor | simpl; lia].
Qed.

Lemma requestsOf_same (st st' : Contribution) :
  option_map scrollRequests (_xterm st') = option_map scrollRequests (_xterm st) ->
  requestsOf st' = requestsOf st.
Proof.
  unfold requestsOf. destruct (_xterm st'), (_xterm st); simpl; congruence.
Qed.

Lemma perform_requests (sys : System) (ha : Host * Action) :
  exists l',
    requestsOf (ctrl (perform sys ha)) = (requestsOf (ctrl sys) ++ l')%list /\
    Forall (fun r => snd r = Middle) l' /\
    (List.length l' <= clicks [ha])%nat.
Proof.
  destruct ha as [h a].
  assert (Hsame : requestsOf (ctrl (perform sys (h, a))) = requestsOf (ctrl sys) ->
                  exists l',
                    requestsOf (ctrl (perform sys (h, a))) =
                      (requestsOf (ctrl sys) ++ l')%list /\
                    Forall (fun r => snd r = Middle) l' /\
                    (List.length l' <= clicks [(h, a)])%nat).
  { intros E. exists []. rewrite app_nil_r. repeat split;
      [assumption | constructor | simpl; lia]. }
  destruct a; [| | apply click_requests | | | |]; apply Hsame; simpl.
  - apply requestsOf_same. now rewrite refresh_xterm.
  - apply requestsOf_same. now rewrite bufferChange_xterm.
  - unfold ctorResolved. destruct (ctorPending sys); [| reflexivity].
    simpl. unfold overlayConstructed, requestsOf.
    destruct (_xterm (ctrl sys)) eqn:E; simpl; now rewrite E.
  - unfold serializeResolved. destruct (serializePending sys); [| reflexivity].
    simpl. unfold requestsOf. simpl. now destruct (_xterm (ctrl sys)).
  - unfold canvasResolved. destruct (canvasPending sys); [| reflexivity].
    simpl. unfold canvasAddonLoaded, requestsOf.
    destruct (_xterm (ctrl sys)) as [x' |] eqn:E; [| now rewrite E].
    destruct (isGpuAccelerated x'); simpl; now rewrite E.
  - unfold requestsOf. simpl. now destruct (_xterm (ctrl sys)).
Qed.

Lemma clicks_cons (ha : Host * Action) (l : list (Host * Action)) :
  clicks (ha :: l) = (clicks [ha] + clicks l)%nat.
Proof.
  unfold clicks. simpl.
  now destruct (match snd ha with AClick => true | _ => false end).
Qed.

Lemma performAll_requests (l : list (Host * Action)) :
  forall sys,
  exists l',
    requestsOf (ctrl (performAll l sys)) = (requestsOf (ctrl sys) ++ l')%list /\
    Forall (fun r => snd r = Middle) l' /\
    (List.length l' <= clicks l)%nat.
Proof.
  induction l as [| ha l IH]; intros sys.
  - exists []. simpl. rewrite app_nil_r. repeat split; [constructor | simpl; lia].
  - destruct (perform_requests sys ha) as (l1 & E1 & F1 & L1).
    destruct (IH (perform sys ha)) as (l2 & E2 & F2 & L2).
    exists (l1 ++ l2)%list. change (performAll (ha :: l) sys)
      with (performAll l (perform sys ha)).
    rewrite E2, E1, app_assoc. repeat split.
    + apply Forall_app. now split.
    + rewrite clicks_cons, List.length_app. lia.
Qed.

(** X7.  Whatever happens after [xtermReady], the controller asks the
    primary terminal to scroll only on clicks, at most once per click,
    always with [Middle] alignment, and it never removes a request:
    refreshes, buffer changes and arriving addons never scroll. *)
Theorem scrolls_only_on_click (x : IXtermTerminal) (l : list (Host * Action)) :
  exists added,
    requestsOf (ctrl (performAll l (boot x))) = (scrollRequests x ++ added)%list /\
    Forall (fun r => snd r = Middle) added /\
    (List.length added <= clicks l)%nat.
Proof. apply (performAll_requests l (boot x)). Qed.

(** ** Single operations *)

Lemma ensureElement_stores (h : Host) (st : Contribution) :
  present (_element (stateOf (_ensureElement h st))) = true.
Proof. run_ensure. Qed.

(** X1.  After a first call of [_ensureElement], whether it returned or
    threw, every later call returns and changes nothing: the element is
    created once, and a creation that failed half-way is not resumed. *)
Theorem ensureElement_settles (h h' : Host) (st : Contribution) :
  _ensureElement h' (stateOf (_ensureElement h st)) =
  Returned (stateOf (_ensureElement h st)).
Proof.
  pose proof (ensureElement_stores h st) as H.
  destruct (_element (stateOf (_ensureElement h st))) as [e |] eqn:E;
    [| discriminate].
  now apply (ensureElement_existing h' _ e).
Qed.

Lemma occurs_split (s : string) :
  Js.occurs Js.CR s = true ->
  exists p rest, s = p ++ Js.cr ++ rest /\ Js.occurs Js.CR p = false.
Proof.
  induction s as [| b s IH]; simpl; [discriminate |].
  destruct (Ascii.eqb_spec b Js.CR) as [-> | Hb].
  - intros _. now exists "", s.
  - intros H. destruct (IH H) as (p & rest & -> & Hp).
    exists (String b p), rest. split; [reflexivity |]. simpl.
    destruct (Ascii.eqb_spec b Js.CR); [contradiction | assumption].
Qed.

(** X8.  Whatever the addon returns, the content extracted at line 125 is
    a prefix of it without any carriage return; when the string has a
    carriage return, the prefix ends right before the first one. *)
Theorem extractContent_is_first_line (s : string) :
  exists rest,
    s = extractContent s ++ rest /\
    Js.occurs Js.CR (extractContent s) = false /\
    (if Js.occurs Js.CR s
     then exists rest', rest = Js.cr ++ rest'
     else extractContent s = "" /\ rest = s).
Proof.
  destruct (Js.occurs Js.CR s) eqn:H.
  - destruct (occurs_split s H) as (p & rest & -> & Hp).
    rewrite extractContent_first_line by assumption.
    exists (Js.cr ++ rest). repeat split; [assumption | now exists rest].
  - rewrite extractContent_no_cr by assumption. exists s. now repeat split.
Qed.

Lemma overlayStage_marker (h : Host) (x : IXtermTerminal) (m : IMarker)
    (st : Contribution) :
  _currentStickyMarker (overlayStage h x m st) = _currentStickyMarker st.
Proof. run_stage. Qed.

Lemma overlayStage_synced (h : Host) (x : IXtermTerminal) (m : IMarker)
    (st : Contribution) (o : Overlay) :
  _stickyScrollOverlay st = Some o ->
  exists o1,
    _stickyScrollOverlay (overlayStage h x m st) = Some (_syncOptions x o1) /\
    canvasLoaded o1 = canvasLoaded o /\ opened o1 = opened o.
Proof.
  intros H. unfold overlayStage, writeContent. rewrite H. simpl.
  destruct (_serializeAddon st); simpl; [| eexists; now repeat split].
  destruct (Js.truthy (serialize h (baseY (raw x) - line m))); simpl;
    [| eexists; now repeat split].
  destruct (Js.truthy (extractContent (serialize h (baseY (raw x) - line m))));
    simpl; eexists; now repeat split.
Qed.

Section MoreRefresh.

Variables (h : Host) (st : Contribution) (x : IXtermTerminal)
          (surface : SurfaceElement)
          (getCommandForLine : Z -> option Command) (m : IMarker).

Hypothesis Hxterm : _xterm st = Some x.
Hypothesis Hsurface : element (raw x) = Some surface.
Hypothesis Hcapability : commandDetection h = Some getCommandForLine.
Hypothesis Hmarker : resolveMarker (getCommandForLine (viewportY (raw x))) = Some m.
Hypothesis Hline : line m <> -1.

(** A valid marker is recorded whether the refresh returns or throws. *)
Lemma refresh_records_marker :
  _currentStickyMarker (stateOf (_refresh h st)) = Some m.
Proof.
  rewrite (refresh_valid h st x surface getCommandForLine m
             Hxterm Hsurface Hcapability Hmarker Hline).
  destruct (_ensureElement h st); simpl; [| reflexivity].
  now rewrite overlayStage_marker.
Qed.

End MoreRefresh.

(** X9.  A click that follows a refresh scrolls to the line that refresh
    resolved: when the refresh returns with a valid marker and the
    element carries the click target, the click adds one request for the
    marker's line with [Middle] alignment. *)
Theorem refresh_then_click (h : Host) (st st1 : Contribution)
    (x : IXtermTerminal) (surface : SurfaceElement)
    (getCommandForLine : Z -> option Command) (m : IMarker) (e : HTMLElement) :
  _xterm st = Some x ->
  element (raw x) = Some surface ->
  commandDetection h = Some getCommandForLine ->
  resolveMarker (getCommandForLine (viewportY (raw x))) = Some m ->
  line m <> -1 ->
  _refresh h st = Returned st1 ->
  _element st1 = Some e ->
  hoverOverlay e = true ->
  exists x',
    _xterm (click st1) = Some x' /\
    scrollRequests x' = (scrollRequests x ++ [(line m, Middle)])%list.
Proof.
  intros Hx Hs Hc Hm Hl E He Hh.
  pose proof (refresh_records_marker h st x surface getCommandForLine m
                Hx Hs Hc Hm Hl) as Hrec.
  pose proof (refresh_xterm h st) as Hxt.
  rewrite E in Hrec, Hxt. simpl in Hrec, Hxt.
  unfold click, onHoverClick. rewrite He, Hh, Hxt, Hx, Hrec. simpl.
  eexists. now split.
Qed.

Lemma refresh_then_click_witness :
  exists x',
    _xterm (click (stateOf (_refresh (sampleHost (Some (finishedCommand 17)) twoLines)
                              (readyState (sampleXterm 0 100))))) = Some x' /\
    scrollRequests x' = [(17, Middle)].
Proof.
  apply (refresh_then_click
           (sampleHost (Some (finishedCommand 17)) twoLines)
           (readyState (sampleXterm 0 100))
           (stateOf (_refresh (sampleHost (Some (finishedCommand 17)) twoLines)
                       (readyState (sampleXterm 0 100))))
           (loadSerialize (sampleXterm 0 100))
           {| parentElement := Some tt |}
           (fun _ => Some (finishedCommand 17))
           {| line := 17 |}
           (showOrHide (appendHover (hostOverlay "" (attach createElement)))));
    first [vm_compute; reflexivity | discriminate].
Defined.

(** X10.  A refresh that passes the surface guard and finds no valid
    marker (no capability, no command, no marker, or the line [-1])
    clears the recorded marker, so that a click that follows issues no
    request, whatever marker was recorded before. *)
Theorem unresolved_refresh_disarms_click (h : Host) (st : Contribution)
    (x : IXtermTerminal) (surface : SurfaceElement) :
  _xterm st = Some x ->
  element (raw x) = Some surface ->
  match resolveMarker (commandAtViewport h st) with
  | Some m => line m = -1
  | None => True
  end ->
  _refresh h st = Returned (with_marker None st) /\
  click (with_marker None st) = with_marker None st.
Proof.
  intros Hx Hs Hm. split.
  - unfold _refresh, commandAtViewport in *. rewrite Hx in *. rewrite Hs.
    destruct (commandDetection h) as [g |]; [| reflexivity].
    destruct (resolveMarker (g (viewportY (raw x)))) as [m |]; [| reflexivity].
    now rewrite Hm.
  - unfold click, onHoverClick. simpl.
    destruct (_element st) as [e |]; [| reflexivity].
    destruct (hoverOverlay e); [| reflexivity].
    now destruct (_xterm st).
Qed.

Lemma unresolved_refresh_disarms_click_witness :
  _refresh (sampleHost None "")
    (with_marker (Some {| line := 5 |})
       (elementState (sampleHost None "") (sampleXterm 0 100))) =
    Returned (elementState (sampleHost None "") (sampleXterm 0 100)) /\
  click (elementState (sampleHost None "") (sampleXterm 0 100)) =
    elementState (sampleHost None "") (sampleXterm 0 100).
Proof.
  apply (unresolved_refresh_disarms_click
           (sampleHost None "")
           (with_marker (Some {| line := 5 |})
              (elementState (sampleHost None "") (sampleXterm 0 100)))
           (loadSerialize (sampleXterm 0 100))
           {| parentElement := Some tt |});
    first [vm_compute; reflexivity | exact I].
Defined.

(** X11.  A refresh with a valid marker that runs before the overlay
    terminal is constructed does not skip quietly when the element does
    not exist yet: [_ensureElement] throws at the unguarded [open], after
    the marker has been recorded and an element without click target has
    been stored; nothing is serialized.  With the element already there,
    the same refresh returns after the show-or-hide step and leaves the
    absent overlay alone. *)
Theorem refresh_before_overlay (h : Host) (st : Contribution)
    (x : IXtermTerminal) (surface : SurfaceElement)
    (getCommandForLine : Z -> option Command) (m : IMarker) :
  _xterm st = Some x ->
  element (raw x) = Some surface ->
  commandDetection h = Some getCommandForLine ->
  resolveMarker (getCommandForLine (viewportY (raw x))) = Some m ->
  line m <> -1 ->
  _stickyScrollOverlay st = None ->
  match _element st with
  | None =>
      exists s e,
        _refresh h st = Threw s /\
        _currentStickyMarker s = Some m /\
        _element s = Some e /\
        hoverOverlay e = false /\
        display e = Shown /\
        _stickyScrollOverlay s = None /\
        _serializeAddon s = _serializeAddon st
  | Some e =>
      exists s,
        _refresh h st = Returned s /\
        _currentStickyMarker s = Some m /\
        _element s = Some (showOrHide e) /\
        _stickyScrollOverlay s = None /\
        _serializeAddon s = _serializeAddon st
  end.
Proof.
  intros Hx Hs Hc Hm Hl Ho.
  rewrite (refresh_valid h st x surface getCommandForLine m Hx Hs Hc Hm Hl).
  unfold _ensureElement.
  destruct (_element st) as [e |] eqn:He; simpl.
  - rewrite overlayStage_absent by (simpl; assumption).
    eexists. repeat split; simpl; try reflexivity; try assumption.
    now rewrite He.
  - rewrite Hx, Hs. simpl.
    destruct (parentElement surface); simpl; rewrite ?Ho;
      eexists; eexists; repeat split; simpl; try reflexivity; assumption.
Qed.

Lemma refresh_before_overlay_witness :
  exists s e,
    _refresh (sampleHost (Some (partialCommand 42)) twoLines)
      (xtermReady (sampleXterm 0 100) initial) = Threw s /\
    _currentStickyMarker s = Some {| line := 42 |} /\
    _element s = Some e /\
    hoverOverlay e = false /\
    display e = Shown /\
    _stickyScrollOverlay s = None /\
    _serializeAddon s = None.
Proof.
  apply (refresh_before_overlay
           (sampleHost (Some (partialCommand 42)) twoLines)
           (xtermReady (sampleXterm 0 100) initial)
           (sampleXterm 0 100)
           {| parentElement := Some tt |}
           (fun _ => Some (partialCommand 42))
           {| line := 42 |});
    first [vm_compute; reflexivity | discriminate].
Defined.

(** X12.  Every refresh that reaches the overlay stage ends by copying
    the primary terminal's look onto the overlay terminal, whatever was
    serialized: one row, the primary's column count, no inactive cursor,
    no scrollback, logging off, the primary's theme and visual options.
    The canvas addon and the open state of the overlay are kept. *)
Theorem refresh_syncs_options (h : Host) (st : Contribution)
    (x : IXtermTerminal) (surface : SurfaceElement)
    (getCommandForLine : Z -> option Command) (m : IMarker) (o : Overlay)
    (s : Contribution) :
  _xterm st = Some x ->
  element (raw x) = Some surface ->
  commandDetection h = Some getCommandForLine ->
  resolveMarker (getCommandForLine (viewportY (raw x))) = Some m ->
  line m <> -1 ->
  _ensureElement h st = Returned s ->
  _stickyScrollOverlay s = Some o ->
  exists st' o',
    _refresh h st = Returned st' /\
    _stickyScrollOverlay st' = Some o' /\
    rows o' = 1 /\
    overlayCols o' = cols (raw x) /\
    overlayOptions o' =
      Some {| cursorInactiveStyle := "none"; scrollback := 0;
              logLevel := "off"; theme := getXtermTheme x;
              visual := options (raw x) |} /\
    canvasLoaded o' = canvasLoaded o /\
    opened o' = opened o.
Proof.
  intros Hx Hs Hc Hm Hl He Ho.
  rewrite (refresh_valid h st x surface getCommandForLine m Hx Hs Hc Hm Hl), He.
  set (s1 := with_element (option_map showOrHide (_element s))
               (with_marker (Some m) s)).
  destruct (overlayStage_synced h x m s1 o Ho) as (o1 & E & Ec & Eo).
  exists (overlayStage h x m s1), (_syncOptions x o1).
  repeat split; assumption.
Qed.

Lemma refresh_syncs_options_witness :
  exists st' o',
    _refresh (sampleHost (Some (partialCommand 42)) "")
      (readyState (sampleXterm 0 100)) = Returned st' /\
    _stickyScrollOverlay st' = Some o' /\
    rows o' = 1 /\
    overlayCols o' = 80 /\
    overlayOptions o' =
      Some {| cursorInactiveStyle := "none"; scrollback := 0;
              logLevel := "off"; theme := "dark"; visual := sampleOptions |} /\
    canvasLoaded o' = false /\
    opened o' = true.
Proof.
  apply (refresh_syncs_options
           (sampleHost (Some (partialCommand 42)) "")
           (readyState (sampleXterm 0 100))
           (loadSerialize (sampleXterm 0 100))
           {| parentElement := Some tt |}
           (fun _ => Some (partialCommand 42))
           {| line := 42 |}
           (open (newOverlay 80))
           (stateOf (_ensureElement (sampleHost (Some (partialCommand 42)) "")
                       (readyState (sampleXterm 0 100)))));
    first [vm_compute; reflexivity | discriminate].
Defined.

(** X13.  The refresh does not look at the buffer kind: after a
    buffer-change event for the alternate buffer has hidden the element,
    a refresh with a valid marker shows it again as soon as the element
    has text content. *)
Theorem refresh_reshows_after_alt (h h' : Host) (st st1 : Contribution)
    (x : IXtermTerminal) (surface : SurfaceElement)
    (getCommandForLine : Z -> option Command) (m : IMarker) (e : HTMLElement) :
  _xterm st = Some x ->
  element (raw x) = Some surface ->
  commandDetection h' = Some getCommandForLine ->
  resolveMarker (getCommandForLine (viewportY (raw x))) = Some m ->
  line m <> -1 ->
  onBufferChange h alternate st = Returned st1 ->
  _element st1 = Some e ->
  textContent e <> "" ->
  display e = Hidden /\
  exists st2 e2,
    _refresh h' st1 = Returned st2 /\
    _element st2 = Some e2 /\
    display e2 = Shown.
Proof.
  intros Hx Hs Hc Hm Hl Hb He Ht.
  pose proof (bufferChange_xterm h alternate st) as Hx1.
  rewrite Hb in Hx1. simpl in Hx1. rewrite Hx in Hx1.
  split.
  - unfold onBufferChange in Hb.
    destruct (_ensureElement h st) as [s | s]; [| discriminate].
    injection Hb as <-. simpl in He.
    destruct (_element s) as [e0 |]; [| discriminate].
    now injection He as <-.
  - destruct (refresh_visibility h' st1 x surface getCommandForLine m
                Hx1 Hs Hc Hm Hl st1 e (ensureElement_existing h' st1 e He) He)
      as (st2 & E & Hel).
    exists st2, (showOrHide e). repeat split; try assumption.
    rewrite showOrHide_display.
    destruct (String.eqb_spec (textContent e) ""); [contradiction | reflexivity].
Qed.

Lemma refresh_reshows_after_alt_witness :
  display (setVisibility false
             (appendHover (hostOverlay "W" (attach createElement)))) = Hidden /\
  exists st2 e2,
    _refresh (sampleHost (Some (partialCommand 42)) twoLines)
      (stateOf (onBufferChange (hostWith None "" "W") alternate
                  (readyState (sampleXterm 0 100)))) = Returned st2 /\
    _element st2 = Some e2 /\
    display e2 = Shown.
Proof.
  apply (refresh_reshows_after_alt
           (hostWith None "" "W")
           (sampleHost (Some (partialCommand 42)) twoLines)
           (readyState (sampleXterm 0 100))
           (stateOf (onBufferChange (hostWith None "" "W") alternate
                       (readyState (sampleXterm 0 100))))
           (loadSerialize (sampleXterm 0 100))
           {| parentElement := Some tt |}
           (fun _ => Some (partialCommand 42))
           {| line := 42 |}
           (setVisibility false
              (appendHover (hostOverlay "W" (attach createElement)))));
    first [vm_compute; reflexivity | discriminate].
Defined.

Lemma bufferChange_marker (h : Host) (ty : BufferType) (st : Contribution) :
  _currentStickyMarker (stateOf (onBufferChange h ty st)) = _currentStickyMarker st.
Proof.
  revert h ty st.
  apply (bufferChange_preserves _currentStickyMarker); [reflexivity | run_ensure].
Qed.

Lemma bufferChange_written (h : Host) (ty : BufferType) (st : Contribution) :
  option_map written (_stickyScrollOverlay (stateOf (onBufferChange h ty st))) =
  option_map written (_stickyScrollOverlay st).
Proof.
  revert h ty st.
  apply (bufferChange_preserves
           (fun st => option_map written (_stickyScrollOverlay st)));
    [reflexivity | run_ensure].
Qed.

Lemma bufferChange_options (h : Host) (ty : BufferType) (st : Contribution) :
  option_map overlayOptions (_stickyScrollOverlay (stateOf (onBufferChange h ty st))) =
  option_map overlayOptions (_stickyScrollOverlay st).
Proof.
  revert h ty st.
  apply (bufferChange_preserves
           (fun st => option_map overlayOptions (_stickyScrollOverlay st)));
    [reflexivity | run_ensure].
Qed.

(** X14.  A buffer-change event, whether its listener returns or throws,
    touches nothing but the element and the open state of the overlay
    terminal: the primary terminal, the recorded marker, the serialize
    addon with its call log, and what has been written to the overlay
    terminal and its options stay as they were. *)
Theorem bufferChange_frame (h : Host) (ty : BufferType) (st : Contribution) :
  _xterm (stateOf (onBufferChange h ty st)) = _xterm st /\
  _currentStickyMarker (stateOf (onBufferChange h ty st)) = _currentStickyMarker st /\
  _serializeAddon (stateOf (onBufferChange h ty st)) = _serializeAddon st /\
  option_map written (_stickyScrollOverlay (stateOf (onBufferChange h ty st))) =
    option_map written (_stickyScrollOverlay st) /\
  option_map overlayOptions (_stickyScrollOverlay (stateOf (onBufferChange h ty st))) =
    option_map overlayOptions (_stickyScrollOverlay st).
Proof.
  repeat split.
  - apply bufferChange_xterm.
  - apply bufferChange_marker.
  - apply bufferChange_serializeAddon.
  - apply bufferChange_written.
  - apply bufferChange_options.
Qed.

(** X15.  With a valid marker, the visibility a refresh leaves is read
    off the element's text content at the time of the call: hidden when
    it is the empty string, shown otherwise, whatever is serialized and
    whatever the visibility was before. *)
Theorem refresh_visibility_by_text (h : Host) (st s : Contribution)
    (x : IXtermTerminal) (surface : SurfaceElement)
    (getCommandForLine : Z -> option Command) (m : IMarker) (e : HTMLElement) :
  _xterm st = Some x ->
  element (raw x) = Some surface ->
  commandDetection h = Some getCommandForLine ->
  resolveMarker (getCommandForLine (viewportY (raw x))) = Some m ->
  line m <> -1 ->
  _ensureElement h st = Returned s ->
  _element s = Some e ->
  exists st' e',
    _refresh h st = Returned st' /\
    _element st' = Some e' /\
    sameButDisplay e e' /\
    display e' = if String.eqb (textContent e) "" then Hidden else Shown.
Proof.
  intros Hx Hs Hc Hm Hl He Hel.
  destruct (refresh_visibility h st x surface getCommandForLine m
              Hx Hs Hc Hm Hl s e He Hel) as (st' & E & Hel').
  exists st', (showOrHide e). repeat split; try assumption;
    try apply showOrHide_same.
  apply showOrHide_display.
Qed.

Lemma refresh_visibility_by_text_witness :
  exists st' e',
    _refresh (sampleHost (Some (partialCommand 42)) twoLines)
      (readyState (sampleXterm 0 100)) = Returned st' /\
    _element st' = Some e' /\
    sameButDisplay (appendHover (hostOverlay "" (attach createElement))) e' /\
    display e' = Hidden.
Proof.
  apply (refresh_visibility_by_text
           (sampleHost (Some (partialCommand 42)) twoLines)
           (readyState (sampleXterm 0 100))
           (stateOf (_ensureElement (sampleHost (Some (partialCommand 42)) twoLines)
                       (readyState (sampleXterm 0 100))))
           (loadSerialize (sampleXterm 0 100))
           {| parentElement := Some tt |}
           (fun _ => Some (partialCommand 42))
           {| line := 42 |}
           (appendHover (hostOverlay "" (attach createElement))));
    first [vm_compute; reflexivity | discriminate].
Defined.


Lemma bufferChange_sets_visibility_witness :
  exists st' e,
    onBufferChange (sampleHost None "") alternate (readyState (sampleXterm 0 100)) =
      Returned st' /\
    _element st' = Some e /\
    display e = Hidden.
Proof.
  apply (bufferChange_sets_visibility (sampleHost None "") alternate
           (readyState (sampleXterm 0 100))).
  reflexivity.
Defined.
